(** * dynamic_dynamodb.core.gsi: provisioning of Global Secondary Indexes

    A shallow embedding of [src/dynamic_dynamodb/core/gsi.py] and the
    properties of its decision engine, maintenance-window checker and
    throughput updater.

    The module talks to collaborators that live outside the file (the
    statistics provider, the DynamoDB wrapper, the configuration handler,
    the calculators, the circuit breaker, the logger).  They are taken as
    parameters: read-only oracles collected in records.  Everything the
    module does to the outside world is recorded, in order, in a trace of
    events. *)

From Stdlib Require Import ZArith List String Ascii Bool Lia QArith.
Import ListNotations.

Open Scope string_scope.
Open Scope list_scope.
Open Scope Z_scope.

(** ** Python values, strings and exceptions *)

Module Py.

(** Values passed positionally at the call sites of the module. *)
Inductive value : Type :=
| VNone
| VInt (z : Z)
| VStr (s : string).

(** [int(x)] on a value that already is an integer. *)
Definition int (z : Z) : Z := z.

(** Truthiness of an optional string: [None] and [''] are false. *)
Definition truthy (o : option string) : bool :=
  match o with
  | None => false
  | Some s => negb (s =? "")%string
  end.

(** [s.split(sep)] for a one-character separator: every occurrence
    splits, the result is never empty. *)
Fixpoint split (sep : ascii) (s : string) : list string :=
  match s with
  | EmptyString => [EmptyString]
  | String c s' =>
      if Ascii.eqb c sep then EmptyString :: split sep s'
      else match split sep s' with
           | x :: xs => String c x :: xs
           | [] => [String c EmptyString]
           end
  end.

(** [s.split(sep, 1)]: at most one split, at the first occurrence. *)
Fixpoint split1 (sep : ascii) (s : string) : list string :=
  match s with
  | EmptyString => [EmptyString]
  | String c s' =>
      if Ascii.eqb c sep then [EmptyString; s']
      else match split1 sep s' with
           | x :: xs => String c x :: xs
           | [] => [String c EmptyString]
           end
  end.

(** The last occurrence of [sep] in [s], as (before, after). *)
Fixpoint rfind_split (sep : ascii) (s : string) : option (string * string) :=
  match s with
  | EmptyString => None
  | String c s' =>
      match rfind_split sep s' with
      | Some (a, b) => Some (String c a, b)
      | None => if Ascii.eqb c sep then Some (EmptyString, s') else None
      end
  end.

(** [s.rsplit(sep, 1)]: at most one split, at the last occurrence. *)
Definition rsplit1 (sep : ascii) (s : string) : list string :=
  match rfind_split sep s with
  | Some (a, b) => [a; b]
  | None => [s]
  end.

(** [''.join(l)]. *)
Definition join_empty (l : list string) : string := String.concat "" l.

(** [', '.join(l)]. *)
Definition join_comma (l : list string) : string := String.concat ", " l.

(** [a >= b] and [a <= b] on byte strings: lexicographic by code. *)
Definition str_ge (a b : string) : bool := String.leb b a.
Definition str_le (a b : string) : bool := String.leb a b.

(** Does the character occur in the string? *)
Fixpoint contains (sep : ascii) (s : string) : bool :=
  match s with
  | EmptyString => false
  | String c s' => Ascii.eqb c sep || contains sep s'
  end.

(** The body of a [DynamoDBResponseError], a dict of which the module
    reads the keys ['__type'] and ['message']; either may be absent. *)
Record ErrorBody : Type := mkErrorBody {
  body_type : option string;
  body_message : option string
}.

(** Exceptions the module raises or lets through. *)
Inductive exn : Type :=
| TypeError_arity (fname : string) (expected given : nat)
    (** [f() takes exactly <expected> arguments (<given> given)] *)
| TypeError_argument (fname : string)
    (** an argument outside the types the docstring documents *)
| IndexError
| KeyError (key : string)
    (** a dict subscript with a key the dict does not hold *)
| DynamoDBResponseError (body : ErrorBody).

(** Two decimal digits, zero padded, as [strftime] prints hours and
    minutes. *)
Definition digit (n : nat) : ascii := ascii_of_nat (48 + n mod 10).
Definition two_digits (n : nat) : string :=
  String (digit (n / 10)) (String (digit n) EmptyString).

(** [datetime.strftime('%H%M')]. *)
Definition strftime_HM (hour minute : nat) : string :=
  (two_digits hour ++ two_digits minute)%string.

End Py.

Import Py.

(** ** Events and the effect monad *)

Inductive level : Type := DEBUG | INFO | WARNING | ERROR.

(** What the module does to the outside world.  A log record keeps the
    format string and the arguments given to [format]. *)
Inductive event : Type :=
| Log (lvl : level) (fmt : string) (args : list value)
| CircuitBreaker_is_open
| Dynamodb_table_gsis (table_name : string)
| Dynamodb_get_table (table_name : string)
| Dynamodb_get_gsi_status (table_name : string)
| GsiStats_get_provisioned_read_units (table_name index_name : string)
| GsiStats_get_provisioned_write_units (table_name index_name : string)
| GsiStats_get_consumed_read_units_percent (table_name index_name : string)
| GsiStats_get_consumed_write_units_percent (table_name index_name : string)
| Datetime_utcnow
| Table_update (table_name : string) (read write : Z).

(** How a call ends: with a value, with an exception, or not within the
    recursion depth it was given. *)
Inductive outcome (A : Type) : Type :=
| Return (a : A)
| Raise (e : exn)
| OutOfFuel.

Arguments Return {A} a.
Arguments Raise {A} e.
Arguments OutOfFuel {A}.

(** A computation yields an outcome and the events it produced. *)
Definition M (A : Type) : Type := (outcome A * list event)%type.

Definition ret {A} (a : A) : M A := (Return a, []).

Definition raise {A} (e : exn) : M A := (Raise e, []).

Definition tell (ev : event) : M unit := (Return tt, [ev]).

Definition bind {A B} (m : M A) (f : A -> M B) : M B :=
  match m with
  | (Return a, t) => let (r, t') := f a in (r, t ++ t')
  | (Raise e, t) => (Raise e, t)
  | (OutOfFuel, t) => (OutOfFuel, t)
  end.

Notation "x <- c1 ;; c2" := (bind c1 (fun x => c2))
  (at level 61, c1 at next level, right associativity).
Notation "' pat <- c1 ;; c2" := (bind c1 (fun x => match x with pat => c2 end))
  (at level 61, pat pattern, c1 at next level, right associativity).
Notation "c1 ;; c2" := (bind c1 (fun _ => c2))
  (at level 61, right associativity).

(** [try: m  except DynamoDBResponseError as error: handler error]. *)
Definition try_except_DynamoDBResponseError {A}
    (m : M A) (handler : ErrorBody -> M A) : M A :=
  match m with
  | (Raise (DynamoDBResponseError body), t) =>
      let (r, t') := handler body in (r, t ++ t')
  | other => other
  end.

Definition logger (lvl : level) (fmt : string) (args : list value) : M unit :=
  tell (Log lvl fmt args).

(** [d[key]] on a dict, given what the dict holds at [key]. *)
Definition subscript (key : string) (entry : option string) : M string :=
  match entry with
  | Some v => ret v
  | None => raise (KeyError key)
  end.

Definition result_of {A} (m : M A) : outcome A := fst m.
Definition trace_of {A} (m : M A) : list event := snd m.

(** ** Collaborators *)

(** [get_table_option(key_name, ...)]: the options of one configuration
    key.  Percentages and thresholds are rationals, unit counts integers. *)
Record TableOptions : Type := mkTableOptions {
  allow_scaling_down_reads_on_0_percent : bool;
  allow_scaling_down_writes_on_0_percent : bool;
  gsi_reads_upper_threshold : Q;
  gsi_reads_lower_threshold : Q;
  gsi_writes_upper_threshold : Q;
  gsi_writes_lower_threshold : Q;
  gsi_increase_reads_unit : string;
  gsi_increase_reads_with : Z;
  gsi_decrease_reads_unit : string;
  gsi_decrease_reads_with : Z;
  gsi_increase_writes_unit : string;
  gsi_increase_writes_with : Z;
  gsi_decrease_writes_unit : string;
  gsi_decrease_writes_with : Z;
  gsi_min_provisioned_reads : Z;
  gsi_max_provisioned_reads : Z;
  gsi_min_provisioned_writes : Z;
  gsi_max_provisioned_writes : Z;
  maintenance_windows : option string;
  always_decrease_rw_together : bool
}.

(** [get_global_option(...)] and [get_table_option(key_name, ...)]. *)
Record Config : Type := mkConfig {
  circuit_breaker_url : option string;
  dry_run : bool;
  get_table_option : string -> TableOptions
}.

(** [dynamic_dynamodb.calculators.gsi]: each takes the current units, the
    amount, then [key_name], [table_name] and [index_name]. *)
Definition calculator : Type := Z -> Z -> string -> string -> string -> Z.

Record Calculators : Type := mkCalculators {
  increase_reads_in_percent : calculator;
  increase_reads_in_units : calculator;
  decrease_reads_in_percent : calculator;
  decrease_reads_in_units : calculator;
  increase_writes_in_percent : calculator;
  increase_writes_in_units : calculator;
  decrease_writes_in_percent : calculator;
  decrease_writes_in_units : calculator
}.

(** An entry of [dynamodb.table_gsis(table_name)]. *)
Record GSI : Type := mkGSI { IndexName : string }.

(** The table object of [dynamodb.get_table]: [table.throughput['read']]
    and [table.throughput['write']], the last-known actual capacity. *)
Record Table : Type := mkTable {
  throughput_read : Z;
  throughput_write : Z
}.

(** The answers of the remote side and of the clock during one run. *)
Record Remote : Type := mkRemote {
  is_open : bool;
  table_gsis : string -> list GSI;
  get_table : string -> Table + ErrorBody;
  get_gsi_status : string -> string;
  get_provisioned_read_units : string -> string -> Z;
  get_provisioned_write_units : string -> string -> Z;
  get_consumed_read_units_percent : string -> string -> Q;
  get_consumed_write_units_percent : string -> string -> Q;
  utcnow : nat * nat;
  table_update : string -> Z -> Z -> option ErrorBody
}.

(** ** The module *)

Section Gsi.

Variable cfg : Config.
Variable calculators : Calculators.
Variable env : Remote.

(** The external calls, each leaving its event. *)
Definition circuit_breaker_is_open : M bool :=
  tell CircuitBreaker_is_open ;; ret (is_open env).

Definition dynamodb_table_gsis (table_name : string) : M (list GSI) :=
  tell (Dynamodb_table_gsis table_name) ;; ret (table_gsis env table_name).

Definition dynamodb_get_table (table_name : string) : M Table :=
  tell (Dynamodb_get_table table_name) ;;
  match get_table env table_name with
  | inl table => ret table
  | inr body => raise (DynamoDBResponseError body)
  end.

Definition dynamodb_get_gsi_status (table_name : string) : M string :=
  tell (Dynamodb_get_gsi_status table_name) ;;
  ret (get_gsi_status env table_name).

Definition gsi_stats_get_provisioned_read_units
    (table_name index_name : string) : M Z :=
  tell (GsiStats_get_provisioned_read_units table_name index_name) ;;
  ret (get_provisioned_read_units env table_name index_name).

Definition gsi_stats_get_provisioned_write_units
    (table_name index_name : string) : M Z :=
  tell (GsiStats_get_provisioned_write_units table_name index_name) ;;
  ret (get_provisioned_write_units env table_name index_name).

Definition gsi_stats_get_consumed_read_units_percent
    (table_name index_name : string) : M Q :=
  tell (GsiStats_get_consumed_read_units_percent table_name index_name) ;;
  ret (get_consumed_read_units_percent env table_name index_name).

Definition gsi_stats_get_consumed_write_units_percent
    (table_name index_name : string) : M Q :=
  tell (GsiStats_get_consumed_write_units_percent table_name index_name) ;;
  ret (get_consumed_write_units_percent env table_name index_name).

(** [table.update(throughput={'read': r, 'write': w})]. *)
Definition table_update_throughput (table_name : string) (r w : Z) : M unit :=
  tell (Table_update table_name r w) ;;
  match table_update env table_name r w with
  | None => ret tt
  | Some body => raise (DynamoDBResponseError body)
  end.

(** *** The decision engine *)

(** Lines 90-148 of [__ensure_provisioning_reads]: the value and the flag
    after the threshold steps, before the ceiling. *)
Definition reads_after_thresholds
    (table_name index_name key_name : string) : M (bool * Z) :=
  let opts := get_table_option cfg key_name in
  let update_needed := false in
  updated_read_units <-
    gsi_stats_get_provisioned_read_units table_name index_name ;;
  consumed_read_units_percent <-
    gsi_stats_get_consumed_read_units_percent table_name index_name ;;
  if Qeq_bool consumed_read_units_percent 0
     && negb (allow_scaling_down_reads_on_0_percent opts)
  then
    logger INFO
      "{0} - GSI: {1} - Scaling down reads is not done when usage is at 0%"
      [VStr table_name; VStr index_name] ;;
    ret (update_needed, updated_read_units)
  else if Qle_bool (gsi_reads_upper_threshold opts) consumed_read_units_percent
  then
    let updated_provisioning :=
      if (gsi_increase_reads_unit opts =? "percent")%string
      then increase_reads_in_percent calculators updated_read_units
             (gsi_increase_reads_with opts) key_name table_name index_name
      else increase_reads_in_units calculators updated_read_units
             (gsi_increase_reads_with opts) key_name table_name index_name in
    if negb (updated_read_units =? updated_provisioning)
    then ret (true, updated_provisioning)
    else ret (update_needed, updated_read_units)
  else if Qle_bool consumed_read_units_percent (gsi_reads_lower_threshold opts)
  then
    let updated_provisioning :=
      if (gsi_decrease_reads_unit opts =? "percent")%string
      then decrease_reads_in_percent calculators updated_read_units
             (gsi_decrease_reads_with opts) key_name table_name index_name
      else decrease_reads_in_units calculators updated_read_units
             (gsi_decrease_reads_with opts) key_name table_name index_name in
    if negb (updated_read_units =? updated_provisioning)
    then ret (true, updated_provisioning)
    else ret (update_needed, updated_read_units)
  else ret (update_needed, updated_read_units).

(** Lines 150-159: the ceiling. *)
Definition reads_ceiling (key_name : string) (st : bool * Z) : M (bool * Z) :=
  let opts := get_table_option cfg key_name in
  let '(update_needed, updated_read_units) := st in
  if Py.int updated_read_units >? Py.int (gsi_max_provisioned_reads opts)
  then
    let updated_read_units := Py.int (gsi_max_provisioned_reads opts) in
    logger INFO
      "Will not increase writes over gsi-max-provisioned-reads limit ({0} writes)"
      [VInt updated_read_units] ;;
    ret (true, Py.int updated_read_units)
  else ret (update_needed, Py.int updated_read_units).

Definition __ensure_provisioning_reads
    (table_name index_name key_name : string) : M (bool * Z) :=
  st <- reads_after_thresholds table_name index_name key_name ;;
  reads_ceiling key_name st.

(** Lines 173-232 of [__ensure_provisioning_writes]. *)
Definition writes_after_thresholds
    (table_name index_name key_name : string) : M (bool * Z) :=
  let opts := get_table_option cfg key_name in
  let update_needed := false in
  updated_write_units <-
    gsi_stats_get_provisioned_write_units table_name index_name ;;
  consumed_write_units_percent <-
    gsi_stats_get_consumed_write_units_percent table_name index_name ;;
  if Qeq_bool consumed_write_units_percent 0
     && negb (allow_scaling_down_writes_on_0_percent opts)
  then
    logger INFO
      "{0} - GSI: {1} - Scaling down writes is not done when usage is at 0%"
      [VStr table_name; VStr index_name] ;;
    ret (update_needed, updated_write_units)
  else if Qle_bool (gsi_writes_upper_threshold opts) consumed_write_units_percent
  then
    let updated_provisioning :=
      if (gsi_increase_writes_unit opts =? "percent")%string
      then increase_writes_in_percent calculators updated_write_units
             (gsi_increase_writes_with opts) key_name table_name index_name
      else increase_writes_in_units calculators updated_write_units
             (gsi_increase_writes_with opts) key_name table_name index_name in
    if negb (updated_write_units =? updated_provisioning)
    then ret (true, updated_provisioning)
    else ret (update_needed, updated_write_units)
  else if Qle_bool consumed_write_units_percent (gsi_writes_lower_threshold opts)
  then
    let updated_provisioning :=
      if (gsi_decrease_writes_unit opts =? "percent")%string
      then decrease_writes_in_percent calculators updated_write_units
             (gsi_decrease_writes_with opts) key_name table_name index_name
      else decrease_writes_in_units calculators updated_write_units
             (gsi_decrease_writes_with opts) key_name table_name index_name in
    if negb (updated_write_units =? updated_provisioning)
    then ret (true, updated_provisioning)
    else ret (update_needed, updated_write_units)
  else ret (update_needed, updated_write_units).

(** Lines 234-247: the ceiling. *)
Definition writes_ceiling (table_name index_name key_name : string)
    (st : bool * Z) : M (bool * Z) :=
  let opts := get_table_option cfg key_name in
  let '(update_needed, updated_write_units) := st in
  if Py.int updated_write_units >? Py.int (gsi_max_provisioned_writes opts)
  then
    let updated_write_units := Py.int (gsi_max_provisioned_writes opts) in
    logger INFO
      "{0} - GSI: {1} - Will not increase writes over gsi-max-provisioned-writes limit ({2} writes)"
      [VStr table_name; VStr index_name; VInt updated_write_units] ;;
    ret (true, Py.int updated_write_units)
  else ret (update_needed, Py.int updated_write_units).

Definition __ensure_provisioning_writes
    (table_name index_name key_name : string) : M (bool * Z) :=
  st <- writes_after_thresholds table_name index_name key_name ;;
  writes_ceiling table_name index_name key_name st.

(** *** The maintenance-window checker *)

(** The first loop of [__is_maintenance_window] (lines 260-269): either
    the early [return False] or the list of (start, end) pairs. *)
Fixpoint parse_maintenance_windows (table_name : string)
    (windows : list string) (maintenance_window_list : list (string * string))
    : M (bool + list (string * string)) :=
  match windows with
  | [] => ret (inr maintenance_window_list)
  | window :: rest =>
      match split1 "-" window with
      | [start; end_] =>
          parse_maintenance_windows table_name rest
            (maintenance_window_list ++ [(start, end_)])
      | _ =>
          (* unpacking into two names raises ValueError, caught at once *)
          logger ERROR "{0} - Malformatted maintenance window"
            [VStr table_name] ;;
          ret (inl false)
      end
  end.

(** The second loop (lines 272-278). *)
Fixpoint within_some_window (now : string)
    (maintenance_window_list : list (string * string)) : bool :=
  match maintenance_window_list with
  | [] => false
  | maintenance_window :: rest =>
      let start := join_empty (split ":" (fst maintenance_window)) in
      let end_ := join_empty (split ":" (snd maintenance_window)) in
      if str_ge now start && str_le now end_ then true
      else within_some_window now rest
  end.

Definition datetime_utcnow_HM : M string :=
  tell Datetime_utcnow ;;
  ret (strftime_HM (fst (utcnow env)) (snd (utcnow env))).

Definition __is_maintenance_window
    (table_name maintenance_windows : string) : M bool :=
  parsed <- parse_maintenance_windows table_name
              (split "," maintenance_windows) [] ;;
  match parsed with
  | inl answer => ret answer
  | inr maintenance_window_list =>
      now <- datetime_utcnow_HM ;;
      ret (within_some_window now maintenance_window_list)
  end.

(** *** The throughput updater *)

(** A positional call of [update_throughput]: the five parameters are
    bound in order, and any other number of arguments is a TypeError
    before the body starts. *)
Definition call_update_throughput
    (update_throughput : string -> string -> Z -> Z -> string -> M unit)
    (args : list value) : M unit :=
  match args with
  | [VStr table_name; VStr index_name; VInt read_units; VInt write_units;
     VStr key_name] =>
      update_throughput table_name index_name read_units write_units key_name
  | [_; _; _; _; _] => raise (TypeError_argument "update_throughput")
  | _ => raise (TypeError_arity "update_throughput" 5 (List.length args))
  end.

(** Lines 307-319: [true] when the updater goes on, [false] on the early
    [return]. *)
Definition maintenance_window_gate (table_name key_name : string) : M bool :=
  let opts := get_table_option cfg key_name in
  match maintenance_windows opts with
  | Some windows =>
      if truthy (Some windows) then
        inside <- __is_maintenance_window table_name windows ;;
        if negb inside then
          logger WARNING "{0} - Current time is outside maintenance window"
            [VStr table_name] ;;
          ret false
        else
          logger INFO "{0} - Current time is within maintenance window"
            [VStr table_name] ;;
          ret true
      else ret true
  | None => ret true
  end.

(** Lines 329-357: the coupled scale-down step, returning the read and
    write units the rest of the function uses. *)
Definition coupled_scale_down (table_name index_name key_name : string)
    (current_ru current_wu read_units write_units : Z) : M (Z * Z) :=
  let opts := get_table_option cfg key_name in
  if always_decrease_rw_together opts then
    if (read_units <? current_ru)
       || (current_ru =? gsi_min_provisioned_reads opts) then
      if (write_units <? current_wu)
         || (current_wu =? gsi_min_provisioned_writes opts) then
        logger INFO "{0} - GSI: {1} - Both reads and writes will be decreased"
          [VStr table_name; VStr index_name] ;;
        ret (read_units, write_units)
      else ret (read_units, write_units)
    else if read_units <? current_ru then
      logger INFO
        "{0} - GSI: {1} - Will not decrease reads nor writes, waiting for both to become low before decrease"
        [VStr table_name; VStr index_name] ;;
      ret (current_ru, write_units)
    else if write_units <? current_wu then
      logger INFO
        "{0} - GSI: {1} - Will not decrease reads nor writes, waiting for both to become low before decrease"
        [VStr table_name; VStr index_name] ;;
      ret (read_units, current_wu)
    else ret (read_units, write_units)
  else ret (read_units, write_units).

(** Lines 368-418: the handler of a rejected [table.update].
    [update_throughput] is the function as the handler calls it by name. *)
Definition on_rejection (update_throughput : list value -> M unit)
    (table : Table) (table_name : string) (read_units write_units : Z)
    (key_name : string) (error : ErrorBody) : M unit :=
  body_type_ <- subscript "__type" (body_type error) ;;
  match nth_error (rsplit1 "#" body_type_) 1 with
  | None => raise IndexError
  | Some dynamodb_error =>
      if (dynamodb_error =? "LimitExceededException")%string then
        message <- subscript "message" (body_message error) ;;
        logger WARNING "{0} - {1}" [VStr table_name; VStr message] ;;
        if Py.int read_units >? throughput_read table then
          logger INFO "{0} - Scaling up reads to {1:d}"
            [VStr table_name; VInt (Py.int read_units)] ;;
          update_throughput
            [VStr table_name; VInt (Py.int read_units);
             VInt (Py.int (throughput_write table)); VStr key_name]
        else if Py.int write_units >? throughput_write table then
          logger INFO "{0} - Scaling up writes to {1:d}"
            [VStr table_name; VInt (Py.int write_units)] ;;
          update_throughput
            [VStr table_name; VInt (Py.int (throughput_read table));
             VInt (Py.int write_units); VStr key_name]
        else ret tt
      else if (dynamodb_error =? "ValidationException")%string then
        message <- subscript "message" (body_message error) ;;
        logger WARNING "{0} - ValidationException: {1}"
          [VStr table_name; VStr message]
      else if (dynamodb_error =? "ResourceInUseException")%string then
        message <- subscript "message" (body_message error) ;;
        logger WARNING "{0} - ResourceInUseException: {1}"
          [VStr table_name; VStr message]
      else if (dynamodb_error =? "AccessDeniedException")%string then
        message <- subscript "message" (body_message error) ;;
        logger WARNING "{0} - AccessDeniedException: {1}"
          [VStr table_name; VStr message]
      else
        message <- subscript "message" (body_message error) ;;
        logger ERROR
          "{0} - Unhandled exception: {1}: {2}. Please file a bug report at https://github.com/sebdah/dynamic-dynamodb/issues"
          [VStr table_name; VStr dynamodb_error; VStr message]
  end.

(** Lines 359-418: the remote update and its handler. *)
Definition issue_update (update_throughput : list value -> M unit)
    (table : Table) (table_name index_name : string)
    (read_units write_units : Z) (key_name : string) : M unit :=
  if negb (dry_run cfg) then
    try_except_DynamoDBResponseError
      (table_update_throughput table_name
         (Py.int read_units) (Py.int write_units) ;;
       logger INFO "{0} - GSI: {1} - Provisioning updated"
         [VStr table_name; VStr index_name])
      (on_rejection update_throughput table table_name
         read_units write_units key_name)
  else ret tt.

(** The body of [update_throughput]; the recursive occurrence of the
    function's name is the parameter [update_throughput]. *)
Definition update_throughput_body (update_throughput : list value -> M unit)
    (table_name index_name : string) (read_units write_units : Z)
    (key_name : string) : M unit :=
  got <- try_except_DynamoDBResponseError
           (table <- dynamodb_get_table table_name ;; ret (Some table))
           (fun _ => ret None) ;;
  match got with
  | None => ret tt
  | Some table =>
      current_ru <-
        gsi_stats_get_provisioned_read_units table_name index_name ;;
      current_wu <-
        gsi_stats_get_provisioned_read_units table_name index_name ;;
      go_on <- maintenance_window_gate table_name key_name ;;
      if negb go_on then ret tt
      else
        gsi_status <- dynamodb_get_gsi_status table_name ;;
        (if negb (gsi_status =? "ACTIVE")%string then
           logger WARNING
             "{0} - GSI: {1} - Not performing throughput changes when table is in {1} state"
             [VStr table_name; VStr index_name; VStr gsi_status]
         else ret tt) ;;
        '(read_units, write_units) <-
          coupled_scale_down table_name index_name key_name
            current_ru current_wu read_units write_units ;;
        issue_update update_throughput table table_name index_name
          read_units write_units key_name
  end.

(** [update_throughput], with the depth of recursion it may use. *)
Fixpoint update_throughput (fuel : nat)
    (table_name index_name : string) (read_units write_units : Z)
    (key_name : string) : M unit :=
  match fuel with
  | O => (OutOfFuel, [])
  | S fuel' =>
      update_throughput_body
        (call_update_throughput (update_throughput fuel'))
        table_name index_name read_units write_units key_name
  end.

(** *** The entry point *)

(** Lines 22-25: [true] when the run stops at the circuit breaker. *)
Definition circuit_breaker_gate : M bool :=
  if truthy (circuit_breaker_url cfg) then
    opened <- circuit_breaker_is_open ;;
    if opened then
      logger WARNING "Circuit breaker is OPEN!" [] ;;
      ret true
    else ret false
  else ret false.

(** Lines 43-76: the loop over the indexes. *)
Fixpoint ensure_provisioning_gsis (fuel : nat) (table_name key_name : string)
    (gsis : list GSI) : M unit :=
  match gsis with
  | [] => ret tt
  | gsi :: rest =>
      let index_name := IndexName gsi in
      '(read_update_needed, updated_read_units) <-
        __ensure_provisioning_reads table_name index_name key_name ;;
      '(write_update_needed, updated_write_units) <-
        __ensure_provisioning_writes table_name index_name key_name ;;
      (if read_update_needed || write_update_needed then
         logger INFO
           "{0} - GSI: {1} - Changing provisioning to {2:d} read units and {3:d} write units"
           [VStr table_name; VStr index_name;
            VInt (Py.int updated_read_units);
            VInt (Py.int updated_write_units)] ;;
         call_update_throughput (update_throughput fuel)
           [VStr table_name; VInt updated_read_units;
            VInt updated_write_units; VStr key_name]
       else
         logger INFO "{0} - GSI: {1} - No need to change provisioning"
           [VStr table_name; VStr index_name]) ;;
      ensure_provisioning_gsis fuel table_name key_name rest
  end.

Definition ensure_provisioning (fuel : nat) (table_name key_name : string)
    : M unit :=
  stop <- circuit_breaker_gate ;;
  if stop then ret tt
  else
    gsis <- dynamodb_table_gsis table_name ;;
    match gsis with
    | [] =>
        logger DEBUG "{0} - No global secondary indexes found"
          [VStr table_name] ;;
        ret tt
    | _ =>
        let gsi_names := map IndexName gsis in
        logger INFO
          "{0} - Will ensure provisioning for the followig global secondary indexes: {1}"
          [VStr table_name; VStr (join_comma gsi_names)] ;;
        ensure_provisioning_gsis fuel table_name key_name gsis
    end.

End Gsi.

(** ** One dimension at a time

    The read and the write decision functions are the same code up to the
    names of the options and statistics they use. *)

Inductive dimension : Type := Reads | Writes.

Definition ensure_provisioning_of (d : dimension) (cfg : Config)
    (calculators : Calculators) (env : Remote)
    (table_name index_name key_name : string) : M (bool * Z) :=
  match d with
  | Reads =>
      __ensure_provisioning_reads cfg calculators env
        table_name index_name key_name
  | Writes =>
      __ensure_provisioning_writes cfg calculators env
        table_name index_name key_name
  end.

Definition after_thresholds_of (d : dimension) (cfg : Config)
    (calculators : Calculators) (env : Remote)
    (table_name index_name key_name : string) : M (bool * Z) :=
  match d with
  | Reads =>
      reads_after_thresholds cfg calculators env
        table_name index_name key_name
  | Writes =>
      writes_after_thresholds cfg calculators env
        table_name index_name key_name
  end.

Definition provisioned_units (d : dimension) (env : Remote)
    (table_name index_name : string) : Z :=
  match d with
  | Reads => get_provisioned_read_units env table_name index_name
  | Writes => get_provisioned_write_units env table_name index_name
  end.

Definition consumed_percent (d : dimension) (env : Remote)
    (table_name index_name : string) : Q :=
  match d with
  | Reads => get_consumed_read_units_percent env table_name index_name
  | Writes => get_consumed_write_units_percent env table_name index_name
  end.

Definition allow_scaling_down_on_0_percent (d : dimension)
    (opts : TableOptions) : bool :=
  match d with
  | Reads => allow_scaling_down_reads_on_0_percent opts
  | Writes => allow_scaling_down_writes_on_0_percent opts
  end.

Definition gsi_max_provisioned (d : dimension) (opts : TableOptions) : Z :=
  match d with
  | Reads => gsi_max_provisioned_reads opts
  | Writes => gsi_max_provisioned_writes opts
  end.

(** ** Reading traces *)

Definition is_table_update (ev : event) : bool :=
  match ev with
  | Table_update _ _ _ => true
  | _ => false
  end.

(** The number of [table.update] requests sent. *)
Definition count_table_updates (t : list event) : nat :=
  List.length (filter is_table_update t).

(** The requests sent to [table.update], in order. *)
Fixpoint table_updates (t : list event) : list (Z * Z) :=
  match t with
  | [] => []
  | Table_update _ r w :: t' => (r, w) :: table_updates t'
  | _ :: t' => table_updates t'
  end.

(** Calls that reach the data store: the index listing, the fetches of
    capacity, consumption, table and status, and the update. *)
Definition is_remote_call (ev : event) : bool :=
  match ev with
  | Dynamodb_table_gsis _
  | Dynamodb_get_table _
  | Dynamodb_get_gsi_status _
  | GsiStats_get_provisioned_read_units _ _
  | GsiStats_get_provisioned_write_units _ _
  | GsiStats_get_consumed_read_units_percent _ _
  | GsiStats_get_consumed_write_units_percent _ _
  | Table_update _ _ _ => true
  | Log _ _ _ | CircuitBreaker_is_open | Datetime_utcnow => false
  end.

(** Log records at INFO level, where decisions and changes are logged. *)
Definition is_decision_log (ev : event) : bool :=
  match ev with
  | Log INFO _ _ => true
  | _ => false
  end.

(** A computation that returns and sends no [table.update]. *)
Definition quiet {A} (m : M A) : Prop :=
  exists a t, m = (Return a, t) /\ count_table_updates t = 0%nat.

(** A computation that ends, by returning or raising, within the depth it
    was given, having sent at most one [table.update]. *)
Definition ends_with_one_update_at_most {A} (m : M A) : Prop :=
  result_of m <> OutOfFuel /\ (count_table_updates (trace_of m) <= 1)%nat.

(** Every [table.update] request of the computation satisfies [P]. *)
Definition sends_only {A} (P : Z -> Z -> Prop) (m : M A) : Prop :=
  forall r w, In (r, w) (table_updates (trace_of m)) -> P r w.

(** ** Example inputs *)

(** Options of the key [orders]: thresholds 80% and 20%, steps of 50
    percent, floors of 1 unit. *)
Definition example_options (allow_on_0 : bool) (max_reads max_writes : Z)
    (windows : option string) (together : bool) : TableOptions := {|
  allow_scaling_down_reads_on_0_percent := allow_on_0;
  allow_scaling_down_writes_on_0_percent := allow_on_0;
  gsi_reads_upper_threshold := 80;
  gsi_reads_lower_threshold := 20;
  gsi_writes_upper_threshold := 80;
  gsi_writes_lower_threshold := 20;
  gsi_increase_reads_unit := "percent";
  gsi_increase_reads_with := 50;
  gsi_decrease_reads_unit := "percent";
  gsi_decrease_reads_with := 50;
  gsi_increase_writes_unit := "percent";
  gsi_increase_writes_with := 50;
  gsi_decrease_writes_unit := "percent";
  gsi_decrease_writes_with := 50;
  gsi_min_provisioned_reads := 1;
  gsi_max_provisioned_reads := max_reads;
  gsi_min_provisioned_writes := 1;
  gsi_max_provisioned_writes := max_writes;
  maintenance_windows := windows;
  always_decrease_rw_together := together
|}.

Definition example_config (url : option string) (opts : TableOptions)
    : Config := {|
  circuit_breaker_url := url;
  dry_run := false;
  get_table_option := fun _ => opts
|}.

(** Calculators for inputs whose paths never reach a calculator. *)
Definition unused_calculators : Calculators :=
  let same : calculator := fun current _ _ _ _ => current in
  mkCalculators same same same same same same same same.

(** Table [orders] with the single index [by_customer]. *)
Definition example_remote (breaker_open : bool) (status : string)
    (provisioned_reads provisioned_writes : Z)
    (consumed_reads consumed_writes : Q) (now : nat * nat)
    (actual : Table) (answer : option ErrorBody) : Remote := {|
  is_open := breaker_open;
  table_gsis := fun _ => [mkGSI "by_customer"];
  get_table := fun _ => inl actual;
  get_gsi_status := fun _ => status;
  get_provisioned_read_units := fun _ _ => provisioned_reads;
  get_provisioned_write_units := fun _ _ => provisioned_writes;
  get_consumed_read_units_percent := fun _ _ => consumed_reads;
  get_consumed_write_units_percent := fun _ _ => consumed_writes;
  utcnow := now;
  table_update := fun _ _ _ => answer
|}.

Definition limit_exceeded : ErrorBody :=
  mkErrorBody
    (Some "com.amazonaws.dynamodb.v20120810#LimitExceededException")
    (Some "Subscriber limit exceeded").

(** ** Vocabulary for the further properties *)

Definition gsi_upper_threshold (d : dimension) (opts : TableOptions) : Q :=
  match d with
  | Reads => gsi_reads_upper_threshold opts
  | Writes => gsi_writes_upper_threshold opts
  end.

Definition gsi_lower_threshold (d : dimension) (opts : TableOptions) : Q :=
  match d with
  | Reads => gsi_reads_lower_threshold opts
  | Writes => gsi_writes_lower_threshold opts
  end.

(** The calculator call of the increase branch (lines 109-122, 193-206):
    the percent calculator when the unit option is ['percent'], the
    absolute one for any other value. *)
Definition increase_proposal (d : dimension) (opts : TableOptions)
    (calculators : Calculators) (current : Z)
    (key_name table_name index_name : string) : Z :=
  match d with
  | Reads =>
      if (gsi_increase_reads_unit opts =? "percent")%string
      then increase_reads_in_percent calculators current
             (gsi_increase_reads_with opts) key_name table_name index_name
      else increase_reads_in_units calculators current
             (gsi_increase_reads_with opts) key_name table_name index_name
  | Writes =>
      if (gsi_increase_writes_unit opts =? "percent")%string
      then increase_writes_in_percent calculators current
             (gsi_increase_writes_with opts) key_name table_name index_name
      else increase_writes_in_units calculators current
             (gsi_increase_writes_with opts) key_name table_name index_name
  end.

(** The calculator call of the decrease branch (lines 131-144, 215-228). *)
Definition decrease_proposal (d : dimension) (opts : TableOptions)
    (calculators : Calculators) (current : Z)
    (key_name table_name index_name : string) : Z :=
  match d with
  | Reads =>
      if (gsi_decrease_reads_unit opts =? "percent")%string
      then decrease_reads_in_percent calculators current
             (gsi_decrease_reads_with opts) key_name table_name index_name
      else decrease_reads_in_units calculators current
             (gsi_decrease_reads_with opts) key_name table_name index_name
  | Writes =>
      if (gsi_decrease_writes_unit opts =? "percent")%string
      then decrease_writes_in_percent calculators current
             (gsi_decrease_writes_with opts) key_name table_name index_name
      else decrease_writes_in_units calculators current
             (gsi_decrease_writes_with opts) key_name table_name index_name
  end.

(** The ceiling of one dimension (lines 150-159, 234-247). *)
Definition ceiling_of (d : dimension) (cfg : Config)
    (table_name index_name key_name : string) (st : bool * Z)
    : M (bool * Z) :=
  match d with
  | Reads => reads_ceiling cfg key_name st
  | Writes => writes_ceiling cfg table_name index_name key_name st
  end.

(** The two statistics a decision function fetches, in order. *)
Definition decision_fetches (d : dimension)
    (table_name index_name : string) : list event :=
  match d with
  | Reads =>
      [GsiStats_get_provisioned_read_units table_name index_name;
       GsiStats_get_consumed_read_units_percent table_name index_name]
  | Writes =>
      [GsiStats_get_provisioned_write_units table_name index_name;
       GsiStats_get_consumed_write_units_percent table_name index_name]
  end.

(** The clock reading as the checker formats it. *)
Definition now_HM (env : Remote) : string :=
  strftime_HM (fst (utcnow env)) (snd (utcnow env)).

(** [''.join(x.split(':'))] (lines 273-274). *)
Definition strip_colons (x : string) : string := join_empty (split ":" x).

(** The test of line 275 on one (start, end) pair. *)
Definition window_open (now : string) (w : string * string) : bool :=
  str_ge now (strip_colons (fst w)) && str_le now (strip_colons (snd w)).

(** A window written as [start-end], and a list of windows written with
    commas between them. *)
Definition window_text (w : string * string) : string :=
  (fst w ++ "-" ++ snd w)%string.

Definition windows_text (ws : list (string * string)) : string :=
  String.concat "," (map window_text ws).

(** A window whose text splits back into its two parts: no comma in it
    and no ['-'] in its start. *)
Definition plain_window (w : string * string) : Prop :=
  contains "," (fst w) = false
  /\ contains "-" (fst w) = false
  /\ contains "," (snd w) = false.

(** The rejection categories the handler names besides
    [LimitExceededException] (lines 394-407). *)
Definition known_terminal_rejection (dynamodb_error : string) : bool :=
  (dynamodb_error =? "ValidationException")%string
  || (dynamodb_error =? "ResourceInUseException")%string
  || (dynamodb_error =? "AccessDeniedException")%string.

(** The outcomes that leave [update_throughput]: a normal return, the
    TypeError of a four-argument call, the IndexError of an error type
    without ['#'], or the KeyError of a rejection body without
    ['__type'] or without ['message']. *)
Definition returns_or_raises_from_the_handler {A} (m : M A) : Prop :=
  (exists a, result_of m = Return a)
  \/ result_of m = Raise (TypeError_arity "update_throughput" 5 4)
  \/ result_of m = Raise IndexError
  \/ result_of m = Raise (KeyError "__type")
  \/ result_of m = Raise (KeyError "message").

(** A computation that returns or raises the TypeError of a
    four-argument call, having sent no [table.update]. *)
Definition ends_without_update {A} (m : M A) : Prop :=
  ((exists a, result_of m = Return a)
   \/ result_of m = Raise (TypeError_arity "update_throughput" 5 4))
  /\ count_table_updates (trace_of m) = 0%nat.

(** Calculators that add or subtract the amount, for examples. *)
Definition stepping_calculators : Calculators :=
  let up : calculator := fun current amount _ _ _ => current + amount in
  let down : calculator := fun current amount _ _ _ => current - amount in
  mkCalculators up up down down up up down down.

(** The remote side when the table [orders] does not exist. *)
Definition example_remote_without_table : Remote := {|
  is_open := false;
  table_gsis := fun _ => [mkGSI "by_customer"];
  get_table := fun _ =>
    inr (mkErrorBody
           (Some "com.amazonaws.dynamodb.v20120810#ResourceNotFoundException")
           (Some "Requested resource not found"));
  get_gsi_status := fun _ => "ACTIVE";
  get_provisioned_read_units := fun _ _ => 100;
  get_provisioned_write_units := fun _ _ => 50;
  get_consumed_read_units_percent := fun _ _ => 50%Q;
  get_consumed_write_units_percent := fun _ _ => 50%Q;
  utcnow := (9, 30)%nat;
  table_update := fun _ _ _ => None
|}.

(** A configuration in simulate-only mode. *)
Definition example_dry_run_config (opts : TableOptions) : Config := {|
  circuit_breaker_url := None;
  dry_run := true;
  get_table_option := fun _ => opts
|}.

(** ** Basic facts about the monad and the strings *)

Lemma bind_Return {A B} (a : A) (t : list event) (f : A -> M B) :
  bind (Return a, t) f = (fst (f a), t ++ snd (f a)).
Proof.
  unfold bind. destruct (f a); reflexivity.
Qed.

Lemma count_table_updates_app (t1 t2 : list event) :
  count_table_updates (t1 ++ t2)
  = (count_table_updates t1 + count_table_updates t2)%nat.
Proof.
  unfold count_table_updates. rewrite filter_app. apply length_app.
Qed.

(** A window splits into two parts exactly when it holds the separator. *)
Lemma split1_without_separator (sep : ascii) (s : string) :
  contains sep s = false -> split1 sep s = [s].
Proof.
  induction s as [|c s IH]; simpl; intros H.
  - reflexivity.
  - apply orb_false_iff in H. destruct H as [Hc Hs].
    rewrite Hc, (IH Hs). reflexivity.
Qed.

Lemma split1_with_separator (sep : ascii) (s : string) :
  contains sep s = true -> exists a b, split1 sep s = [a; b].
Proof.
  induction s as [|c s IH]; simpl; intros H.
  - discriminate.
  - destruct (Ascii.eqb c sep) eqn:Hc.
    + eauto.
    + simpl in H. destruct (IH H) as (a & b & ->). eauto.
Qed.

(** ** The decision engine *)

Ltac run_decision :=
  unfold reads_after_thresholds, writes_after_thresholds,
    gsi_stats_get_provisioned_read_units,
    gsi_stats_get_provisioned_write_units,
    gsi_stats_get_consumed_read_units_percent,
    gsi_stats_get_consumed_write_units_percent,
    logger, tell, ret, bind; simpl.

(** The threshold steps raise nothing: they always yield a flag and a
    unit count. *)
Lemma after_thresholds_returns (d : dimension) cfg calculators env
    table_name index_name key_name :
  exists update_needed units,
    result_of (after_thresholds_of d cfg calculators env
                 table_name index_name key_name)
    = Return (update_needed, units).
Proof.
  destruct d; simpl; run_decision;
    repeat match goal with
           | |- context [if ?c then _ else _] => destruct c; simpl
           end; eauto.
Qed.

(** At 0% with scale-down-on-zero disabled the threshold steps leave the
    provisioned units as they are. *)
Lemma after_thresholds_at_zero (d : dimension) cfg calculators env
    table_name index_name key_name :
  Qeq_bool (consumed_percent d env table_name index_name) 0 = true ->
  allow_scaling_down_on_0_percent d (get_table_option cfg key_name) = false ->
  result_of (after_thresholds_of d cfg calculators env
               table_name index_name key_name)
  = Return (false, provisioned_units d env table_name index_name).
Proof.
  destruct d; simpl; intros Hzero Hallow; run_decision;
    rewrite Hzero, Hallow; reflexivity.
Qed.

(** The ceiling, applied to what the threshold steps produced. *)
Lemma ensure_provisioning_of_ceiling (d : dimension) cfg calculators env
    table_name index_name key_name (after_needed : bool) (after_units : Z) :
  result_of (after_thresholds_of d cfg calculators env
               table_name index_name key_name)
  = Return (after_needed, after_units) ->
  result_of (ensure_provisioning_of d cfg calculators env
               table_name index_name key_name)
  = Return
      (after_needed
       || (after_units >? gsi_max_provisioned d (get_table_option cfg key_name)),
       Z.min after_units
         (gsi_max_provisioned d (get_table_option cfg key_name))).
Proof.
  destruct d; simpl;
    unfold __ensure_provisioning_reads, __ensure_provisioning_writes;
    intros H.
  - destruct (reads_after_thresholds _ _ _ _ _ _) as [r tr].
    simpl in H. subst r. rewrite bind_Return.
    unfold reads_ceiling, Py.int, result_of.
    destruct (after_units >? _) eqn:Hgt; simpl.
    + rewrite orb_true_r. f_equal. f_equal.
      apply Z.gtb_lt in Hgt. lia.
    + rewrite orb_false_r. f_equal. f_equal.
      rewrite Z.gtb_ltb in Hgt. apply Z.ltb_ge in Hgt. lia.
  - destruct (writes_after_thresholds _ _ _ _ _ _) as [r tr].
    simpl in H. subst r. rewrite bind_Return.
    unfold writes_ceiling, Py.int, result_of.
    destruct (after_units >? _) eqn:Hgt; simpl.
    + rewrite orb_true_r. f_equal. f_equal.
      apply Z.gtb_lt in Hgt. lia.
    + rewrite orb_false_r. f_equal. f_equal.
      rewrite Z.gtb_ltb in Hgt. apply Z.ltb_ge in Hgt. lia.
Qed.

(** C7.  For either dimension, the decision function returns a flag and a
    unit count, the count never exceeds the configured maximum, and
    whenever the value left by the threshold steps exceeds that maximum
    the maximum is returned with the change-needed flag set; this covers
    the outcome where the threshold steps changed nothing and the
    provisioned value itself is above the maximum.  Below or at the
    maximum the ceiling changes neither the value nor the flag. *)
Theorem C7_returned_units_capped_at_maximum (d : dimension) cfg calculators
    env table_name index_name key_name :
  let maximum := gsi_max_provisioned d (get_table_option cfg key_name) in
  exists after_needed after_units update_needed units,
    result_of (after_thresholds_of d cfg calculators env
                 table_name index_name key_name)
    = Return (after_needed, after_units)
    /\ result_of (ensure_provisioning_of d cfg calculators env
                    table_name index_name key_name)
       = Return (update_needed, units)
    /\ units <= maximum
    /\ (maximum < after_units -> units = maximum /\ update_needed = true)
    /\ (after_needed = false ->
        after_units = provisioned_units d env table_name index_name ->
        maximum < provisioned_units d env table_name index_name ->
        units = maximum /\ update_needed = true)
    /\ (after_units <= maximum ->
        units = after_units /\ update_needed = after_needed).
Proof.
  intros maximum.
  destruct (after_thresholds_returns d cfg calculators env
              table_name index_name key_name) as (b & u & Hafter).
  pose proof (ensure_provisioning_of_ceiling d cfg calculators env
                table_name index_name key_name b u Hafter) as Hfinal.
  fold maximum in Hfinal.
  exists b, u, (b || (u >? maximum)), (Z.min u maximum).
  assert (Hover : maximum < u ->
                  Z.min u maximum = maximum /\ b || (u >? maximum) = true).
  { intros Hlt. split; [lia|].
    apply orb_true_iff. right. apply Z.gtb_lt. lia. }
  split; [exact Hafter|]. split; [exact Hfinal|]. split; [lia|].
  split; [exact Hover|]. split.
  - intros _ Hu Hlt. apply Hover. lia.
  - intros Hle. split; [lia|].
    replace (u >? maximum) with false.
    + apply orb_false_r.
    + symmetry. rewrite Z.gtb_ltb. apply Z.ltb_ge. lia.
Qed.

(** C6, as stated, fails: reads provisioned at 100 with a maximum of 50,
    consumption exactly 0% and scale-down-on-zero disabled come back as 50
    units, below the provisioned 100. *)
Lemma C6_zero_percent_can_return_fewer_units :
  let cfg := example_config None (example_options false 50 1000 None false) in
  let env := example_remote false "ACTIVE" 100 50 0 0 (9, 30)%nat
               (mkTable 100 50) None in
  Qeq_bool (consumed_percent Reads env "orders" "by_customer") 0 = true
  /\ allow_scaling_down_on_0_percent Reads (get_table_option cfg "orders")
     = false
  /\ provisioned_units Reads env "orders" "by_customer" = 100
  /\ result_of (ensure_provisioning_of Reads cfg unused_calculators env
                  "orders" "by_customer" "orders")
     = Return (true, 50)
  /\ ~ (provisioned_units Reads env "orders" "by_customer" <= 50).
Proof.
  simpl. repeat split; try reflexivity. lia.
Qed.

(** C6, amended.  When the consumed percent of a dimension is exactly 0
    and scale-down-on-zero is disabled for it, the decision function
    returns the smaller of the provisioned units and the configured
    maximum, whatever the thresholds are: the provisioned units, with no
    change needed, when they do not exceed the maximum, and the maximum,
    with change needed, when they do. *)
Theorem C6_zero_percent_keeps_units_up_to_the_maximum (d : dimension)
    cfg calculators env table_name index_name key_name :
  Qeq_bool (consumed_percent d env table_name index_name) 0 = true ->
  allow_scaling_down_on_0_percent d (get_table_option cfg key_name) = false ->
  let provisioned := provisioned_units d env table_name index_name in
  let maximum := gsi_max_provisioned d (get_table_option cfg key_name) in
  result_of (ensure_provisioning_of d cfg calculators env
               table_name index_name key_name)
  = Return (provisioned >? maximum, Z.min provisioned maximum)
  /\ (provisioned <= maximum ->
      result_of (ensure_provisioning_of d cfg calculators env
                   table_name index_name key_name)
      = Return (false, provisioned)).
Proof.
  intros Hzero Hallow provisioned maximum.
  pose proof (ensure_provisioning_of_ceiling d cfg calculators env
                table_name index_name key_name _ _
                (after_thresholds_at_zero d cfg calculators env
                   table_name index_name key_name Hzero Hallow)) as H.
  simpl in H. fold provisioned maximum in H.
  split; [exact H|].
  intros Hle. rewrite H. f_equal. f_equal.
  - rewrite Z.gtb_ltb. apply Z.ltb_ge. lia.
  - lia.
Qed.

Lemma C6_zero_percent_keeps_units_witness :
  let cfg := example_config None (example_options false 1000 1000 None false) in
  let env := example_remote false "ACTIVE" 100 50 0 0 (9, 30)%nat
               (mkTable 100 50) None in
  Qeq_bool (consumed_percent Writes env "orders" "by_customer") 0 = true
  /\ allow_scaling_down_on_0_percent Writes (get_table_option cfg "orders")
     = false
  /\ result_of (ensure_provisioning_of Writes cfg unused_calculators env
                  "orders" "by_customer" "orders")
     = Return (false, 50).
Proof.
  intros cfg env.
  split; [reflexivity|]. split; [reflexivity|].
  apply (C6_zero_percent_keeps_units_up_to_the_maximum Writes
           cfg unused_calculators env "orders" "by_customer" "orders");
    [reflexivity | reflexivity | simpl; lia].
Defined.

(** ** The maintenance-window checker *)

(** The first loop stops at the first window without a separator,
    whatever it has collected so far. *)
Lemma parse_maintenance_windows_malformed (table_name : string)
    (windows : list string) :
  (exists window, In window windows /\ contains "-" window = false) ->
  forall collected,
    parse_maintenance_windows table_name windows collected
    = (Return (inl false),
       [Log ERROR "{0} - Malformatted maintenance window" [VStr table_name]]).
Proof.
  induction windows as [|w rest IH]; intros (bad & Hin & Hbad) collected.
  - destruct Hin.
  - simpl. destruct (contains "-" w) eqn:Hw.
    + destruct (split1_with_separator "-" w Hw) as (a & b & ->).
      apply IH. exists bad. split; [|exact Hbad].
      destruct Hin as [->|Hin]; [congruence|exact Hin].
    + rewrite (split1_without_separator "-" w Hw). reflexivity.
Qed.

(** C8, as stated, fails on its own example: the window ["0900-1000"]
    holds the separator, parses as the range 0900 to 1000, and at 09:30
    the check answers that changes are permitted, logging nothing. *)
Lemma C8_window_0900_1000_is_accepted :
  let env := example_remote false "ACTIVE" 100 50 50 50 (9, 30)%nat
               (mkTable 100 50) None in
  contains "-" "0900-1000" = true
  /\ __is_maintenance_window env "orders" "0900-1000"
     = (Return true, [Datetime_utcnow]).
Proof.
  split; reflexivity.
Qed.

(** C8, amended.  When some comma-separated window of the string holds no
    ['-'] at all, the check answers [False] (not in window) at any time of
    day and logs the error [Malformatted maintenance window]; it raises
    nothing and does not look at the clock. *)
Theorem C8_window_without_separator_fails_closed (env : Remote)
    (table_name maintenance_windows : string) :
  (exists window,
      In window (split "," maintenance_windows)
      /\ contains "-" window = false) ->
  __is_maintenance_window env table_name maintenance_windows
  = (Return false,
     [Log ERROR "{0} - Malformatted maintenance window" [VStr table_name]]).
Proof.
  intros Hbad. unfold __is_maintenance_window.
  rewrite (parse_maintenance_windows_malformed table_name _ Hbad []).
  reflexivity.
Qed.

Lemma C8_window_without_separator_witness :
  let env := example_remote false "ACTIVE" 100 50 50 50 (9, 30)%nat
               (mkTable 100 50) None in
  (In "1100"%string (split "," "09:00-10:00,1100")
   /\ contains "-" "1100" = false)
  /\ __is_maintenance_window env "orders" "09:00-10:00,1100"
     = (Return false,
        [Log ERROR "{0} - Malformatted maintenance window" [VStr "orders"]]).
Proof.
  intros env.
  assert (Hbad : In "1100"%string (split "," "09:00-10:00,1100")
                 /\ contains "-" "1100" = false).
  { split; [simpl; auto | reflexivity]. }
  split; [exact Hbad|].
  apply (C8_window_without_separator_fails_closed env
           "orders" "09:00-10:00,1100").
  exists "1100"%string. exact Hbad.
Defined.

(** ** The circuit breaker *)

(** Once the gate has asked the breaker and got "open", the run is over:
    one warning and nothing else. *)
Lemma open_circuit_breaker_gate_stops_the_run (cfg : Config)
    (calculators : Calculators) (env : Remote) (fuel : nat)
    (table_name key_name : string) :
  truthy (circuit_breaker_url cfg) = true ->
  is_open env = true ->
  ensure_provisioning cfg calculators env fuel table_name key_name
  = (Return tt,
     [CircuitBreaker_is_open; Log WARNING "Circuit breaker is OPEN!" []]).
Proof.
  intros Hurl Hopen.
  unfold ensure_provisioning, circuit_breaker_gate, circuit_breaker_is_open.
  rewrite Hurl, Hopen. reflexivity.
Qed.

Lemma absent_after_bind {A B} (ev : event) (m : M A) (f : A -> M B) :
  ~ In ev (trace_of m) ->
  (forall a, ~ In ev (trace_of (f a))) ->
  ~ In ev (trace_of (bind m f)).
Proof.
  destruct m as [[a| |] t]; unfold trace_of; simpl; intros Hm Hf;
    try exact Hm.
  specialize (Hf a). destruct (f a) as [r t']. simpl in *.
  intros Hin. apply in_app_or in Hin. tauto.
Qed.

(** The decision functions never ask the breaker. *)
Lemma decision_never_asks_the_breaker (d : dimension) cfg calculators env
    table_name index_name key_name :
  ~ In CircuitBreaker_is_open
      (trace_of (ensure_provisioning_of d cfg calculators env
                   table_name index_name key_name)).
Proof.
  destruct d; simpl;
    unfold __ensure_provisioning_reads, __ensure_provisioning_writes,
      reads_ceiling, writes_ceiling, Py.int, trace_of;
    run_decision;
    repeat match goal with
           | |- context [if ?c then _ else _] => destruct c; simpl
           end; intuition discriminate.
Qed.

(** Nor does the loop over the indexes. *)
Lemma loop_never_asks_the_breaker (cfg : Config)
    (calculators : Calculators) (env : Remote) (fuel : nat)
    (table_name key_name : string) (gsis : list GSI) :
  ~ In CircuitBreaker_is_open
      (trace_of (ensure_provisioning_gsis cfg calculators env fuel
                   table_name key_name gsis)).
Proof.
  induction gsis as [|gsi rest IH]; cbn [ensure_provisioning_gsis].
  - intros [].
  - apply absent_after_bind;
      [exact (decision_never_asks_the_breaker Reads cfg calculators env
                table_name (IndexName gsi) key_name)|].
    intros [flag_r r].
    apply absent_after_bind;
      [exact (decision_never_asks_the_breaker Writes cfg calculators env
                table_name (IndexName gsi) key_name)|].
    intros [flag_w w].
    apply absent_after_bind; [|intros _; exact IH].
    destruct (flag_r || flag_w); unfold trace_of; simpl;
      intuition discriminate.
Qed.

(** A run that does not consult the breaker at the gate never asks it. *)
Lemma run_without_url_never_asks_the_breaker (cfg : Config)
    (calculators : Calculators) (env : Remote) (fuel : nat)
    (table_name key_name : string) :
  truthy (circuit_breaker_url cfg) = false ->
  ~ In CircuitBreaker_is_open
      (trace_of (ensure_provisioning cfg calculators env fuel
                   table_name key_name)).
Proof.
  intros Hurl. unfold ensure_provisioning, circuit_breaker_gate.
  rewrite Hurl.
  apply absent_after_bind; [intros []|].
  intros [|]; [intros []|].
  apply absent_after_bind;
    [unfold trace_of; simpl; intuition discriminate|].
  intros [|gsi gsis]; [unfold trace_of; simpl; intuition discriminate|].
  apply absent_after_bind;
    [unfold trace_of; simpl; intuition discriminate|].
  intros _. apply loop_never_asks_the_breaker.
Qed.

(** C9.  In every run in which the circuit breaker is open, that is,
    every run of [ensure_provisioning] that asks the breaker
    ([circuit_breaker.is_open()], lines 22-23) and gets the answer
    "open", the function logs one warning and returns: it makes no
    remote call (no index listing, no capacity fetch, no update) and
    logs no decision. *)
Theorem C9_open_circuit_breaker_makes_no_remote_call (cfg : Config)
    (calculators : Calculators) (env : Remote) (fuel : nat)
    (table_name key_name : string) :
  let run := ensure_provisioning cfg calculators env fuel
               table_name key_name in
  In CircuitBreaker_is_open (trace_of run) ->
  is_open env = true ->
  run = (Return tt,
         [CircuitBreaker_is_open; Log WARNING "Circuit breaker is OPEN!" []])
  /\ existsb is_remote_call (trace_of run) = false
  /\ existsb is_decision_log (trace_of run) = false.
Proof.
  intros run Hasked Hopen.
  assert (Hrun : run = (Return tt,
            [CircuitBreaker_is_open;
             Log WARNING "Circuit breaker is OPEN!" []])).
  { destruct (truthy (circuit_breaker_url cfg)) eqn:Hurl.
    - apply open_circuit_breaker_gate_stops_the_run; assumption.
    - exfalso.
      exact (run_without_url_never_asks_the_breaker cfg calculators env
               fuel table_name key_name Hurl Hasked). }
  rewrite Hrun. repeat split; reflexivity.
Qed.

Lemma C9_open_circuit_breaker_run_witness :
  let cfg := example_config (Some "http://breaker.example/status")
               (example_options false 1000 1000 None false) in
  let env := example_remote true "ACTIVE" 100 50 50 50 (9, 30)%nat
               (mkTable 100 50) None in
  In CircuitBreaker_is_open
    (trace_of (ensure_provisioning cfg unused_calculators env 1
                 "orders" "orders"))
  /\ is_open env = true
  /\ ensure_provisioning cfg unused_calculators env 1 "orders" "orders"
     = (Return tt,
        [CircuitBreaker_is_open; Log WARNING "Circuit breaker is OPEN!" []]).
Proof.
  intros cfg env.
  split; [simpl; auto|]. split; [reflexivity|].
  apply (C9_open_circuit_breaker_makes_no_remote_call cfg
           unused_calculators env 1 "orders" "orders");
    [simpl; auto | reflexivity].
Defined.

(** ** The throughput updater *)

(** *** The coupled scale-down step *)

(** The step hands back the read proposal it was given, and a write
    proposal that is the one it was given or [current_wu]. *)
Lemma coupled_scale_down_returns (cfg : Config)
    (table_name index_name key_name : string)
    (current_ru current_wu read_units write_units : Z) :
  exists write_units' logs,
    coupled_scale_down cfg table_name index_name key_name
      current_ru current_wu read_units write_units
    = (Return (read_units, write_units'), logs)
    /\ (write_units' = write_units \/ write_units' = current_wu).
Proof.
  unfold coupled_scale_down, logger, tell, ret, bind.
  destruct (always_decrease_rw_together _); [|eauto].
  destruct (read_units <? current_ru) eqn:Hr; simpl.
  - destruct (_ || _); eauto.
  - destruct (current_ru =? _); simpl.
    + destruct (_ || _); eauto.
    + destruct (write_units <? current_wu); eauto.
Qed.

(** The write proposal can indeed be replaced: reads steady at 100,
    writes proposed down from 100 to 40. *)
Example coupled_scale_down_can_revert_writes :
  result_of (coupled_scale_down
               (example_config None
                  (example_options false 1000 1000 None true))
               "orders" "by_customer" "orders" 100 100 100 40)
  = Return (100, 100).
Proof. reflexivity. Qed.

(** A read decrease always passes the step as proposed, together with the
    write proposal. *)
Lemma coupled_scale_down_passes_read_decrease (cfg : Config)
    (table_name index_name key_name : string)
    (current_ru current_wu read_units write_units : Z) :
  read_units < current_ru ->
  result_of (coupled_scale_down cfg table_name index_name key_name
               current_ru current_wu read_units write_units)
  = Return (read_units, write_units).
Proof.
  intros Hlt. apply Z.ltb_lt in Hlt.
  unfold coupled_scale_down, logger, tell, ret, bind.
  destruct (always_decrease_rw_together _); [|reflexivity].
  rewrite Hlt. simpl. destruct (_ || _); reflexivity.
Qed.

(** C2, on the code: with coupling enabled, current capacity (100, 100),
    floors of 1 and the proposal (50, 100), the request sent is
    (50, 100): the read decrease is passed through, not reverted to the
    current 100. *)
Theorem C2_asymmetric_read_decrease_is_sent :
  let cfg := example_config None (example_options false 1000 1000 None true) in
  let env := example_remote false "ACTIVE" 100 100 50 50 (9, 30)%nat
               (mkTable 100 100) None in
  update_throughput cfg env 2 "orders" "by_customer" 50 100 "orders"
  = (Return tt,
     [Dynamodb_get_table "orders";
      GsiStats_get_provisioned_read_units "orders" "by_customer";
      GsiStats_get_provisioned_read_units "orders" "by_customer";
      Dynamodb_get_gsi_status "orders";
      Table_update "orders" 50 100;
      Log INFO "{0} - GSI: {1} - Provisioning updated"
        [VStr "orders"; VStr "by_customer"]])
  /\ table_updates
       (trace_of (update_throughput cfg env 2
                    "orders" "by_customer" 50 100 "orders"))
     = [(50, 100)].
Proof.
  split; reflexivity.
Qed.

(** *** Status of the index *)

(** C4, on the code: with the index in state UPDATING the warning is
    logged and the function goes on to send the update. *)
Theorem C4_update_sent_when_index_not_active :
  let cfg := example_config None (example_options false 1000 1000 None false) in
  let env := example_remote false "UPDATING" 100 50 50 50 (9, 30)%nat
               (mkTable 100 50) None in
  update_throughput cfg env 2 "orders" "by_customer" 150 50 "orders"
  = (Return tt,
     [Dynamodb_get_table "orders";
      GsiStats_get_provisioned_read_units "orders" "by_customer";
      GsiStats_get_provisioned_read_units "orders" "by_customer";
      Dynamodb_get_gsi_status "orders";
      Log WARNING
        "{0} - GSI: {1} - Not performing throughput changes when table is in {1} state"
        [VStr "orders"; VStr "by_customer"; VStr "UPDATING"];
      Table_update "orders" 150 50;
      Log INFO "{0} - GSI: {1} - Provisioning updated"
        [VStr "orders"; VStr "by_customer"]])
  /\ table_updates
       (trace_of (update_throughput cfg env 2
                    "orders" "by_customer" 150 50 "orders"))
     = [(150, 50)].
Proof.
  split; reflexivity.
Qed.

(** *** Rejection and retry *)

Lemma bind_ext {A B} (m : M A) (f g : A -> M B) :
  (forall a, f a = g a) -> bind m f = bind m g.
Proof.
  intros H. destruct m as [[a| |] t]; simpl; [rewrite H|..]; reflexivity.
Qed.

Lemma quiet_ret {A} (a : A) : quiet (ret a).
Proof. exists a, []. split; reflexivity. Qed.

Lemma quiet_logger lvl fmt args : quiet (logger lvl fmt args).
Proof. exists tt, [Log lvl fmt args]. split; reflexivity. Qed.

Lemma quiet_bind {A B} (m : M A) (f : A -> M B) :
  quiet m -> (forall a, quiet (f a)) -> quiet (bind m f).
Proof.
  intros (a & t & -> & Ht) Hf. destruct (Hf a) as (b & t' & Hfa & Ht').
  exists b, (t ++ t'). rewrite bind_Return, Hfa. simpl.
  split; [reflexivity|]. rewrite count_table_updates_app. lia.
Qed.

Lemma ends_after_quiet {A B} (m : M A) (f : A -> M B) :
  quiet m ->
  (forall a, ends_with_one_update_at_most (f a)) ->
  ends_with_one_update_at_most (bind m f).
Proof.
  intros (a & t & -> & Ht) Hf. destruct (Hf a) as [Hres Hcount].
  rewrite bind_Return. split; simpl.
  - exact Hres.
  - rewrite count_table_updates_app. unfold trace_of in Hcount. lia.
Qed.

Lemma quiet_ends {A} (m : M A) : quiet m -> ends_with_one_update_at_most m.
Proof.
  intros (a & t & -> & Ht). split; simpl; [discriminate|lia].
Qed.

Create HintDb quiet.

#[global] Hint Resolve quiet_ret quiet_logger quiet_bind : quiet.

(** Closes [quiet m] for an [m] made of logging and returning. *)
Ltac quiet_now :=
  solve [ eexists _, _; split; reflexivity | auto with quiet ].

(** The call sites of the module pass four arguments: the call raises
    before the body of [update_throughput] starts, whatever the function
    would do. *)
Lemma call_update_throughput_four_arguments
    (f : string -> string -> Z -> Z -> string -> M unit)
    (table_name : string) (read_units write_units : Z) (key_name : string) :
  call_update_throughput f
    [VStr table_name; VInt read_units; VInt write_units; VStr key_name]
  = raise (TypeError_arity "update_throughput" 5 4).
Proof. reflexivity. Qed.

Lemma parse_maintenance_windows_quiet (table_name : string)
    (windows : list string) :
  forall collected,
    quiet (parse_maintenance_windows table_name windows collected).
Proof.
  induction windows as [|w rest IH]; intros collected; simpl.
  - quiet_now.
  - destruct (split1 "-" w) as [|a [|b [|c l]]].
    all: try apply IH.
    all: eexists _, _; split; reflexivity.
Qed.

Lemma is_maintenance_window_quiet (env : Remote)
    (table_name maintenance_windows : string) :
  quiet (__is_maintenance_window env table_name maintenance_windows).
Proof.
  unfold __is_maintenance_window. apply quiet_bind.
  - apply parse_maintenance_windows_quiet.
  - intros [answer|l]; [quiet_now|].
    unfold datetime_utcnow_HM. eexists _, _. split; reflexivity.
Qed.

Lemma maintenance_window_gate_quiet (cfg : Config) (env : Remote)
    (table_name key_name : string) :
  quiet (maintenance_window_gate cfg env table_name key_name).
Proof.
  unfold maintenance_window_gate.
  destruct (maintenance_windows _) as [windows|]; [|quiet_now].
  destruct (truthy _); [|quiet_now].
  apply quiet_bind; [apply is_maintenance_window_quiet|].
  intros [|]; simpl; quiet_now.
Qed.

Lemma coupled_scale_down_quiet (cfg : Config)
    (table_name index_name key_name : string)
    (current_ru current_wu read_units write_units : Z) :
  quiet (coupled_scale_down cfg table_name index_name key_name
           current_ru current_wu read_units write_units).
Proof.
  unfold coupled_scale_down.
  repeat match goal with
         | |- context [if ?c then _ else _] => destruct c
         end; quiet_now.
Qed.

(** The handler of a rejection ends and sends nothing, and does not
    depend on what a well-formed recursive call would do. *)
Lemma on_rejection_sends_nothing f table table_name read_units write_units
    key_name error :
  result_of (on_rejection (call_update_throughput f) table table_name
               read_units write_units key_name error) <> OutOfFuel
  /\ count_table_updates
       (trace_of (on_rejection (call_update_throughput f) table table_name
                    read_units write_units key_name error)) = 0%nat.
Proof.
  unfold on_rejection, subscript, ret.
  destruct (body_type error) as [body_type_|];
    [|split; [discriminate|reflexivity]].
  rewrite bind_Return. cbn beta iota.
  destruct (nth_error _ 1) as [dynamodb_error|];
    [|split; [discriminate|reflexivity]].
  destruct (body_message error) as [message|];
    repeat match goal with
           | |- context [if ?c then _ else _] => destruct c
           end; split; simpl; solve [discriminate | reflexivity].
Qed.

Lemma on_rejection_independent f g table table_name read_units write_units
    key_name error :
  on_rejection (call_update_throughput f) table table_name
    read_units write_units key_name error
  = on_rejection (call_update_throughput g) table table_name
      read_units write_units key_name error.
Proof.
  unfold on_rejection, subscript, ret.
  destruct (body_type error) as [body_type_|]; [|reflexivity].
  rewrite !bind_Return. cbn beta iota.
  destruct (nth_error _ 1) as [dynamodb_error|]; [|reflexivity].
  destruct (body_message error) as [message|];
    repeat match goal with
           | |- context [if ?c then _ else _] => destruct c
           end; reflexivity.
Qed.

Lemma issue_update_ends (cfg : Config) (env : Remote) f table
    table_name index_name read_units write_units key_name :
  ends_with_one_update_at_most
    (issue_update cfg env (call_update_throughput f) table
       table_name index_name read_units write_units key_name).
Proof.
  unfold issue_update.
  destruct (dry_run cfg); simpl; [apply quiet_ends; quiet_now|].
  unfold table_update_throughput, Py.int.
  destruct (table_update env table_name read_units write_units)
    as [body|] eqn:Hanswer.
  - unfold try_except_DynamoDBResponseError, bind, tell, raise. simpl.
    destruct (on_rejection_sends_nothing f table table_name
                read_units write_units key_name body) as [Hres Hcount].
    destruct (on_rejection _ _ _ _ _ _ _) as [r t].
    simpl in *. split; simpl.
    + exact Hres.
    + unfold count_table_updates in *. simpl. lia.
  - split; simpl; [discriminate|].
    unfold count_table_updates. simpl. lia.
Qed.

Lemma issue_update_independent (cfg : Config) (env : Remote) f g table
    table_name index_name read_units write_units key_name :
  issue_update cfg env (call_update_throughput f) table
    table_name index_name read_units write_units key_name
  = issue_update cfg env (call_update_throughput g) table
      table_name index_name read_units write_units key_name.
Proof.
  unfold issue_update. destruct (dry_run cfg); simpl; [reflexivity|].
  unfold table_update_throughput, Py.int.
  destruct (table_update env table_name read_units write_units) as [body|];
    [|reflexivity].
  unfold try_except_DynamoDBResponseError, bind, tell, raise. simpl.
  rewrite (on_rejection_independent f g). reflexivity.
Qed.

Lemma get_table_quiet (env : Remote) (table_name : string) :
  quiet (try_except_DynamoDBResponseError
           (table <- dynamodb_get_table env table_name ;; ret (Some table))
           (fun _ => ret None)).
Proof.
  unfold dynamodb_get_table, tell, ret, raise, bind. simpl.
  destruct (get_table env table_name) as [table|body]; simpl;
    eexists _, _; split; reflexivity.
Qed.

Lemma update_throughput_body_independent (cfg : Config) (env : Remote) f g
    table_name index_name read_units write_units key_name :
  update_throughput_body cfg env (call_update_throughput f)
    table_name index_name read_units write_units key_name
  = update_throughput_body cfg env (call_update_throughput g)
      table_name index_name read_units write_units key_name.
Proof.
  unfold update_throughput_body.
  apply bind_ext. intros [table|]; [|reflexivity].
  apply bind_ext. intros current_ru.
  apply bind_ext. intros current_wu.
  apply bind_ext. intros [|]; cbn [negb]; [|reflexivity].
  apply bind_ext. intros gsi_status.
  apply bind_ext. intros _.
  apply bind_ext. intros [r w].
  apply issue_update_independent.
Qed.

Lemma update_throughput_body_ends (cfg : Config) (env : Remote) f
    table_name index_name read_units write_units key_name :
  ends_with_one_update_at_most
    (update_throughput_body cfg env (call_update_throughput f)
       table_name index_name read_units write_units key_name).
Proof.
  unfold update_throughput_body.
  apply ends_after_quiet; [apply get_table_quiet|].
  intros [table|]; [|apply quiet_ends; quiet_now].
  apply ends_after_quiet;
    [unfold gsi_stats_get_provisioned_read_units; eexists _, _;
     split; reflexivity|].
  intros current_ru.
  apply ends_after_quiet;
    [unfold gsi_stats_get_provisioned_read_units; eexists _, _;
     split; reflexivity|].
  intros current_wu.
  apply ends_after_quiet; [apply maintenance_window_gate_quiet|].
  intros [|]; cbn [negb]; [|apply quiet_ends; quiet_now].
  apply ends_after_quiet;
    [unfold dynamodb_get_gsi_status; eexists _, _; split; reflexivity|].
  intros gsi_status.
  apply ends_after_quiet; [destruct (negb _); quiet_now|].
  intros _.
  apply ends_after_quiet; [apply coupled_scale_down_quiet|].
  intros [r w]. apply issue_update_ends.
Qed.

Lemma table_updates_app (t1 t2 : list event) :
  table_updates (t1 ++ t2) = table_updates t1 ++ table_updates t2.
Proof.
  induction t1 as [|ev t1 IH]; simpl; [reflexivity|].
  destruct ev; simpl; rewrite IH; reflexivity.
Qed.

Lemma table_updates_none (t : list event) :
  count_table_updates t = 0%nat -> table_updates t = [].
Proof.
  unfold count_table_updates.
  induction t as [|ev t IH]; simpl; [reflexivity|].
  destruct ev; simpl; solve [exact IH | discriminate].
Qed.

Lemma sends_only_after_quiet {A B} (P : Z -> Z -> Prop)
    (m : M A) (f : A -> M B) :
  quiet m ->
  (forall a t, m = (Return a, t) -> sends_only P (f a)) ->
  sends_only P (bind m f).
Proof.
  intros (a & t & Hm & Ht) Hf. specialize (Hf a t Hm). subst m.
  rewrite bind_Return. intros r w. unfold trace_of in *. simpl.
  rewrite table_updates_app, (table_updates_none t Ht). exact (Hf r w).
Qed.

Lemma quiet_sends_only {A} (P : Z -> Z -> Prop) (m : M A) :
  quiet m -> sends_only P m.
Proof.
  intros (a & t & -> & Ht) r w. unfold trace_of. simpl.
  rewrite (table_updates_none t Ht). intros [].
Qed.

(** The only request [issue_update] can send carries the units it was
    given. *)
Lemma issue_update_sends (cfg : Config) (env : Remote) f table
    table_name index_name read_units write_units key_name :
  sends_only (fun r w => r = read_units /\ w = write_units)
    (issue_update cfg env (call_update_throughput f) table
       table_name index_name read_units write_units key_name).
Proof.
  unfold issue_update.
  destruct (dry_run cfg); simpl; [apply quiet_sends_only; quiet_now|].
  unfold table_update_throughput, Py.int.
  destruct (table_update env table_name read_units write_units)
    as [body|] eqn:Hanswer.
  - unfold try_except_DynamoDBResponseError, bind, tell, raise. simpl.
    destruct (on_rejection_sends_nothing f table table_name
                read_units write_units key_name body) as [_ Hcount].
    destruct (on_rejection _ _ _ _ _ _ _) as [res t].
    intros r w. unfold trace_of in *. simpl in *.
    rewrite (table_updates_none t Hcount).
    intros [Heq|[]]. inversion Heq. split; reflexivity.
  - intros r w. unfold trace_of. simpl.
    intros [Heq|[]]. inversion Heq. split; reflexivity.
Qed.

(** Whatever [update_throughput] sends, it sends the read units it was
    called with; the write units are those it was called with or the
    value it holds in [current_wu]. *)
Lemma update_throughput_body_sends (cfg : Config) (env : Remote) f
    table_name index_name read_units write_units key_name :
  sends_only
    (fun r w =>
       r = read_units
       /\ (w = write_units
           \/ w = get_provisioned_read_units env table_name index_name))
    (update_throughput_body cfg env (call_update_throughput f)
       table_name index_name read_units write_units key_name).
Proof.
  unfold update_throughput_body.
  apply sends_only_after_quiet; [apply get_table_quiet|].
  intros [table|] _ _; [|apply quiet_sends_only; quiet_now].
  apply sends_only_after_quiet;
    [unfold gsi_stats_get_provisioned_read_units; eexists _, _;
     split; reflexivity|].
  intros current_ru _ _.
  apply sends_only_after_quiet;
    [unfold gsi_stats_get_provisioned_read_units; eexists _, _;
     split; reflexivity|].
  intros current_wu t Hwu. inversion Hwu; subst current_wu t; clear Hwu.
  apply sends_only_after_quiet; [apply maintenance_window_gate_quiet|].
  intros [|] _ _; cbn [negb]; [|apply quiet_sends_only; quiet_now].
  apply sends_only_after_quiet;
    [unfold dynamodb_get_gsi_status; eexists _, _; split; reflexivity|].
  intros gsi_status _ _.
  apply sends_only_after_quiet; [destruct (negb _); quiet_now|].
  intros _ _ _.
  apply sends_only_after_quiet; [apply coupled_scale_down_quiet|].
  intros [r' w'] t Hstep.
  destruct (coupled_scale_down_returns cfg table_name index_name key_name
              current_ru
              (get_provisioned_read_units env table_name index_name)
              read_units write_units) as (w0 & logs & Hret & Hw0).
  rewrite Hret in Hstep. inversion Hstep; subst r' w' t; clear Hstep.
  intros r w Hin.
  destruct (issue_update_sends cfg env f table table_name index_name
              read_units w0 key_name r w Hin) as [-> ->].
  split; [reflexivity|exact Hw0].
Qed.

(** C10.  In every execution of the coupled scale-down step, enabled or
    not, the read proposal comes out as it went in; the write proposal
    comes out unchanged or replaced by [current_wu].  The branch that
    would assign [current_ru] to [read_units] is an [elif] of the test
    [read_units < current_ru or current_ru == gsi_min_provisioned_reads],
    so it is reached only when that test is false, and then its own guard
    [read_units < current_ru] is false.  As a result every request that
    [update_throughput] sends carries the read units it was called with;
    only the write units can differ, and then they are the value of
    [current_wu]. *)
Theorem C10_coupled_scale_down_never_changes_reads (cfg : Config)
    (env : Remote) (fuel : nat) (table_name index_name key_name : string)
    (current_ru current_wu read_units write_units : Z) :
  (exists write_units' logs,
      coupled_scale_down cfg table_name index_name key_name
        current_ru current_wu read_units write_units
      = (Return (read_units, write_units'), logs)
      /\ (write_units' = write_units \/ write_units' = current_wu))
  /\ ((read_units <? current_ru)
      || (current_ru
          =? gsi_min_provisioned_reads (get_table_option cfg key_name))
      = false ->
      (read_units <? current_ru) = false)
  /\ sends_only
       (fun r w =>
          r = read_units
          /\ (w = write_units
              \/ w = get_provisioned_read_units env table_name index_name))
       (update_throughput cfg env (S fuel)
          table_name index_name read_units write_units key_name).
Proof.
  split; [apply coupled_scale_down_returns|]. split.
  - intros H. apply orb_false_iff in H. tauto.
  - simpl. apply update_throughput_body_sends.
Qed.

(** C5.  [update_throughput] ends for every input and every answer of the
    remote side, rejections included: with any positive depth it gives
    the result it gives with depth 1, so no nested run of its body is
    ever needed, and it sends at most one [table.update] in all, so a
    rejected request is followed by no further request (at most two are
    allowed).  The retry in the handler is a call with four arguments,
    which raises before the body starts again. *)
Theorem C5_retry_by_splitting_terminates (cfg : Config) (env : Remote)
    (fuel : nat) (table_name index_name : string)
    (read_units write_units : Z) (key_name : string) :
  let run := update_throughput cfg env (S fuel)
               table_name index_name read_units write_units key_name in
  result_of run <> OutOfFuel
  /\ run = update_throughput cfg env 1
             table_name index_name read_units write_units key_name
  /\ (count_table_updates (trace_of run) <= 1)%nat
  /\ (count_table_updates (trace_of run) - 1 <= 2)%nat.
Proof.
  intros run. unfold run. simpl.
  destruct (update_throughput_body_ends cfg env (update_throughput cfg env fuel)
              table_name index_name read_units write_units key_name)
    as [Hres Hcount].
  split; [exact Hres|]. split; [apply update_throughput_body_independent|].
  split; [exact Hcount|lia].
Qed.

(** C3, on the code: the proposal (150, 60) against the actual capacity
    (100, 50) is rejected with LimitExceededException; the handler logs
    that it scales up reads and calls [update_throughput] with four
    arguments, which raises TypeError.  The only request sent is the
    rejected one; no request for (150, 50) follows. *)
Theorem C3_retry_call_raises_TypeError :
  let cfg := example_config None (example_options false 1000 1000 None false) in
  let env := example_remote false "ACTIVE" 100 50 50 50 (9, 30)%nat
               (mkTable 100 50) (Some limit_exceeded) in
  update_throughput cfg env 2 "orders" "by_customer" 150 60 "orders"
  = (Raise (TypeError_arity "update_throughput" 5 4),
     [Dynamodb_get_table "orders";
      GsiStats_get_provisioned_read_units "orders" "by_customer";
      GsiStats_get_provisioned_read_units "orders" "by_customer";
      Dynamodb_get_gsi_status "orders";
      Table_update "orders" 150 60;
      Log WARNING "{0} - {1}"
        [VStr "orders"; VStr "Subscriber limit exceeded"];
      Log INFO "{0} - Scaling up reads to {1:d}"
        [VStr "orders"; VInt 150]])
  /\ table_updates
       (trace_of (update_throughput cfg env 2
                    "orders" "by_customer" 150 60 "orders"))
     = [(150, 60)].
Proof.
  split; reflexivity.
Qed.

(** ** The entry point *)

(** C1, on the code: the index [by_customer] has 100 read units
    provisioned over a maximum of 50, so the read decision reports that an
    update to 50 is needed.  [ensure_provisioning] logs the change and
    calls [update_throughput(table_name, updated_read_units,
    updated_write_units, key_name)]: four arguments for five parameters,
    no index name.  The call raises TypeError; the body of the updater
    never runs, nothing is bound and no update is sent. *)
Theorem C1_update_call_omits_index_name :
  let cfg := example_config None (example_options false 50 1000 None false) in
  let env := example_remote false "ACTIVE" 100 50 50 50 (9, 30)%nat
               (mkTable 100 50) None in
  result_of (__ensure_provisioning_reads cfg unused_calculators env
               "orders" "by_customer" "orders")
  = Return (true, 50)
  /\ ensure_provisioning cfg unused_calculators env 2 "orders" "orders"
     = (Raise (TypeError_arity "update_throughput" 5 4),
        [Dynamodb_table_gsis "orders";
         Log INFO
           "{0} - Will ensure provisioning for the followig global secondary indexes: {1}"
           [VStr "orders"; VStr "by_customer"];
         GsiStats_get_provisioned_read_units "orders" "by_customer";
         GsiStats_get_consumed_read_units_percent "orders" "by_customer";
         Log INFO
           "Will not increase writes over gsi-max-provisioned-reads limit ({0} writes)"
           [VInt 50];
         GsiStats_get_provisioned_write_units "orders" "by_customer";
         GsiStats_get_consumed_write_units_percent "orders" "by_customer";
         Log INFO
           "{0} - GSI: {1} - Changing provisioning to {2:d} read units and {3:d} write units"
           [VStr "orders"; VStr "by_customer"; VInt 50; VInt 50]])
  /\ table_updates
       (trace_of (ensure_provisioning cfg unused_calculators env 2
                    "orders" "orders"))
     = [].
Proof.
  repeat split; reflexivity.
Qed.

(** ** Further properties of the decision engine *)

(** Without the flag, the threshold steps hand back the provisioned
    units. *)
Lemma after_thresholds_unflagged (d : dimension) cfg calculators env
    table_name index_name key_name (units : Z) :
  result_of (after_thresholds_of d cfg calculators env
               table_name index_name key_name)
  = Return (false, units) ->
  units = provisioned_units d env table_name index_name.
Proof.
  destruct d; simpl; run_decision;
    repeat match goal with
           | |- context [if ?c then _ else _] => destruct c; simpl
           end;
    intros H; inversion H; reflexivity.
Qed.

(** The threshold steps as a function of the two fetched values, when
    the 0% skip does not apply. *)
Lemma after_thresholds_steps (d : dimension) cfg calculators env
    table_name index_name key_name :
  let opts := get_table_option cfg key_name in
  let provisioned := provisioned_units d env table_name index_name in
  let consumed := consumed_percent d env table_name index_name in
  Qeq_bool consumed 0 && negb (allow_scaling_down_on_0_percent d opts)
  = false ->
  result_of (after_thresholds_of d cfg calculators env
               table_name index_name key_name)
  = Return
      (let proposal :=
         if Qle_bool (gsi_upper_threshold d opts) consumed
         then increase_proposal d opts calculators provisioned
                key_name table_name index_name
         else if Qle_bool consumed (gsi_lower_threshold d opts)
         then decrease_proposal d opts calculators provisioned
                key_name table_name index_name
         else provisioned in
       (negb (provisioned =? proposal), proposal)).
Proof.
  destruct d; simpl; intros Hskip; run_decision; rewrite Hskip;
    repeat match goal with
           | |- context [if Qle_bool ?a ?b then _ else _] =>
               destruct (Qle_bool a b); simpl
           end;
    try (rewrite Z.eqb_refl; reflexivity);
    match goal with
    | |- context [negb (?a =? ?b)] => destruct (a =? b) eqn:Heq; simpl
    end;
    try reflexivity;
    apply Z.eqb_eq in Heq; rewrite <- Heq; reflexivity.
Qed.

(** X1.  A decision that reports no needed update returns the provisioned
    units themselves, and they are within the configured maximum: the
    flag is false only when nothing changed. *)
Theorem X1_unflagged_decision_returns_provisioned_units (d : dimension)
    cfg calculators env table_name index_name key_name (units : Z) :
  result_of (ensure_provisioning_of d cfg calculators env
               table_name index_name key_name)
  = Return (false, units) ->
  units = provisioned_units d env table_name index_name
  /\ units <= gsi_max_provisioned d (get_table_option cfg key_name).
Proof.
  intros H.
  destruct (after_thresholds_returns d cfg calculators env
              table_name index_name key_name) as (b & u & Hafter).
  rewrite (ensure_provisioning_of_ceiling d cfg calculators env
             table_name index_name key_name b u Hafter) in H.
  inversion H as [[Hflag Hunits]].
  apply orb_false_iff in Hflag. destruct Hflag as [-> Hgt].
  rewrite Z.gtb_ltb in Hgt. apply Z.ltb_ge in Hgt.
  rewrite (after_thresholds_unflagged d cfg calculators env
             table_name index_name key_name u Hafter) in *.
  lia.
Qed.

Lemma X1_unflagged_decision_witness :
  let cfg := example_config None (example_options false 1000 1000 None false) in
  let env := example_remote false "ACTIVE" 100 50 50 50 (9, 30)%nat
               (mkTable 100 50) None in
  result_of (ensure_provisioning_of Reads cfg unused_calculators env
               "orders" "by_customer" "orders")
  = Return (false, 100)
  /\ 100 = provisioned_units Reads env "orders" "by_customer"
  /\ 100 <= gsi_max_provisioned Reads (get_table_option cfg "orders").
Proof.
  intros cfg env. split; [reflexivity|].
  apply (X1_unflagged_decision_returns_provisioned_units Reads cfg
           unused_calculators env "orders" "by_customer" "orders" 100).
  reflexivity.
Defined.

(** X2.  When the 0% skip does not apply, the decision of a dimension is
    a function of the two fetched values: the proposal is the increase
    calculator's result when consumption is at or above the upper
    threshold (also when it is at or below the lower one as well), else
    the decrease calculator's result when it is at or below the lower
    threshold, else the provisioned units; the units returned are the
    smaller of the proposal and the maximum, and the flag is set exactly
    when the proposal differs from the provisioned units or exceeds the
    maximum.  The configured minimum plays no part. *)
Theorem X2_decision_from_fetched_values (d : dimension)
    cfg calculators env table_name index_name key_name :
  let opts := get_table_option cfg key_name in
  let provisioned := provisioned_units d env table_name index_name in
  let consumed := consumed_percent d env table_name index_name in
  let maximum := gsi_max_provisioned d opts in
  Qeq_bool consumed 0 && negb (allow_scaling_down_on_0_percent d opts)
  = false ->
  let proposal :=
    if Qle_bool (gsi_upper_threshold d opts) consumed
    then increase_proposal d opts calculators provisioned
           key_name table_name index_name
    else if Qle_bool consumed (gsi_lower_threshold d opts)
    then decrease_proposal d opts calculators provisioned
           key_name table_name index_name
    else provisioned in
  result_of (ensure_provisioning_of d cfg calculators env
               table_name index_name key_name)
  = Return (negb (provisioned =? proposal) || (proposal >? maximum),
            Z.min proposal maximum).
Proof.
  intros opts provisioned consumed maximum Hskip proposal.
  apply ensure_provisioning_of_ceiling.
  apply (after_thresholds_steps d cfg calculators env
           table_name index_name key_name Hskip).
Qed.

Lemma X2_decision_from_fetched_values_witness :
  let cfg := example_config None (example_options false 120 1000 None false) in
  let env := example_remote false "ACTIVE" 100 50 95 10 (9, 30)%nat
               (mkTable 100 50) None in
  result_of (ensure_provisioning_of Reads cfg stepping_calculators env
               "orders" "by_customer" "orders")
  = Return (true, 120).
Proof.
  intros cfg env.
  apply (X2_decision_from_fetched_values Reads cfg stepping_calculators env
           "orders" "by_customer" "orders").
  reflexivity.
Defined.

(** X3.  Inside the band, consumption above the lower and below the upper
    threshold, with the provisioned units within the maximum, a decision
    function reports no needed update and returns the provisioned units,
    whatever the calculators would compute. *)
Theorem X3_inside_the_band_nothing_changes (d : dimension)
    cfg calculators env table_name index_name key_name :
  let opts := get_table_option cfg key_name in
  let provisioned := provisioned_units d env table_name index_name in
  let consumed := consumed_percent d env table_name index_name in
  Qle_bool (gsi_upper_threshold d opts) consumed = false ->
  Qle_bool consumed (gsi_lower_threshold d opts) = false ->
  provisioned <= gsi_max_provisioned d opts ->
  result_of (ensure_provisioning_of d cfg calculators env
               table_name index_name key_name)
  = Return (false, provisioned).
Proof.
  intros opts provisioned consumed.
  subst opts provisioned consumed. intros Hup Hlow Hmax.
  assert (Hafter :
    result_of (after_thresholds_of d cfg calculators env
                 table_name index_name key_name)
    = Return (false, provisioned_units d env table_name index_name)).
  { destruct d; simpl in *; run_decision; rewrite Hup, Hlow;
      destruct (_ && _); reflexivity. }
  rewrite (ensure_provisioning_of_ceiling d cfg calculators env
             table_name index_name key_name _ _ Hafter).
  f_equal. f_equal.
  - rewrite Z.gtb_ltb. apply Z.ltb_ge. lia.
  - lia.
Qed.

Lemma X3_inside_the_band_witness :
  let cfg := example_config None (example_options false 1000 1000 None false) in
  let env := example_remote false "ACTIVE" 100 50 50 50 (9, 30)%nat
               (mkTable 100 50) None in
  result_of (ensure_provisioning_of Writes cfg stepping_calculators env
               "orders" "by_customer" "orders")
  = Return (false, 50).
Proof.
  intros cfg env.
  apply (X3_inside_the_band_nothing_changes Writes cfg stepping_calculators
           env "orders" "by_customer" "orders");
    [reflexivity | reflexivity | simpl; lia].
Defined.

(** X4.  A decision function reaches the remote side exactly twice, for
    the provisioned units and then the consumed percent of its own
    dimension and index; it sends no update and fetches nothing else. *)
Theorem X4_decision_fetches_two_statistics (d : dimension)
    cfg calculators env table_name index_name key_name :
  filter is_remote_call
    (trace_of (ensure_provisioning_of d cfg calculators env
                 table_name index_name key_name))
  = decision_fetches d table_name index_name.
Proof.
  destruct d; simpl;
    unfold __ensure_provisioning_reads, __ensure_provisioning_writes,
      reads_ceiling, writes_ceiling, Py.int;
    run_decision;
    repeat match goal with
           | |- context [if ?c then _ else _] => destruct c; simpl
           end; reflexivity.
Qed.

(** X5.  The ceiling is idempotent: applied to its own result it returns
    that result again. *)
Theorem X5_ceiling_is_idempotent (d : dimension) (cfg : Config)
    (table_name index_name key_name : string) (st : bool * Z) :
  result_of (st' <- ceiling_of d cfg table_name index_name key_name st ;;
             ceiling_of d cfg table_name index_name key_name st')
  = result_of (ceiling_of d cfg table_name index_name key_name st).
Proof.
  destruct st as [flag units].
  destruct d; simpl; unfold reads_ceiling, writes_ceiling, Py.int,
    logger, tell, ret, bind;
    destruct (units >? _) eqn:Hgt; simpl;
    try rewrite Hgt; simpl;
    try (rewrite Z.gtb_ltb, Z.ltb_irrefl); reflexivity.
Qed.

(** ** Further properties of the maintenance-window checker *)

Lemma string_leb_trans (a b c : string) :
  String.leb a b = true -> String.leb b c = true -> String.leb a c = true.
Proof.
  unfold String.leb. revert b c.
  induction a as [|x a IH]; intros [|y b] [|z c]; simpl; try easy.
  unfold Ascii.compare.
  destruct (N.compare_spec (N_of_ascii x) (N_of_ascii y)) as [Hxy|Hxy|Hxy];
    destruct (N.compare_spec (N_of_ascii y) (N_of_ascii z)) as [Hyz|Hyz|Hyz];
    destruct (N.compare_spec (N_of_ascii x) (N_of_ascii z)) as [Hxz|Hxz|Hxz];
    try easy; try lia.
  apply IH.
Qed.

Lemma contains_app (sep : ascii) (a b : string) :
  contains sep (a ++ b) = contains sep a || contains sep b.
Proof.
  induction a as [|c a IH]; simpl; [reflexivity|].
  rewrite IH. apply orb_assoc.
Qed.

Lemma split_without_separator (sep : ascii) (s : string) :
  contains sep s = false -> split sep s = [s].
Proof.
  induction s as [|c s IH]; simpl; intros H; [reflexivity|].
  apply orb_false_iff in H. destruct H as [Hc Hs].
  rewrite Hc, (IH Hs). reflexivity.
Qed.

Lemma split_app_separator (sep : ascii) (a b : string) :
  contains sep a = false ->
  split sep (a ++ String sep b) = a :: split sep b.
Proof.
  induction a as [|c a IH]; simpl; intros H.
  - rewrite Ascii.eqb_refl. reflexivity.
  - apply orb_false_iff in H. destruct H as [Hc Ha].
    rewrite Hc, (IH Ha). reflexivity.
Qed.

Lemma split1_app_separator (sep : ascii) (a b : string) :
  contains sep a = false ->
  split1 sep (a ++ String sep b) = [a; b].
Proof.
  induction a as [|c a IH]; simpl; intros H.
  - rewrite Ascii.eqb_refl. reflexivity.
  - apply orb_false_iff in H. destruct H as [Hc Ha].
    rewrite Hc, (IH Ha). reflexivity.
Qed.

Lemma plain_window_text_no_comma (w : string * string) :
  plain_window w -> contains "," (window_text w) = false.
Proof.
  intros (Hstart & _ & Hend). unfold window_text.
  rewrite contains_app, Hstart. simpl. exact Hend.
Qed.

(** Splitting the comma-joined text of plain windows gives their texts
    back. *)
Lemma split_windows_text (ws : list (string * string)) :
  ws <> [] -> Forall plain_window ws ->
  split "," (windows_text ws) = map window_text ws.
Proof.
  unfold windows_text.
  induction ws as [|w ws IH]; intros Hne Hplain; [congruence|].
  inversion Hplain as [|w' ws' Hw Hws]; subst.
  destruct ws as [|w2 ws].
  - simpl. rewrite (split_without_separator _ _
                      (plain_window_text_no_comma w Hw)). reflexivity.
  - change (String.concat "," (map window_text (w :: w2 :: ws)))
      with (window_text w
            ++ String "," (String.concat "," (map window_text (w2 :: ws))))%string.
    rewrite (split_app_separator _ _ _ (plain_window_text_no_comma w Hw)).
    rewrite IH; [reflexivity | discriminate | exact Hws].
Qed.

Lemma parse_plain_windows (table_name : string)
    (ws : list (string * string)) :
  Forall plain_window ws ->
  forall collected,
    parse_maintenance_windows table_name (map window_text ws) collected
    = (Return (inr (collected ++ ws)), []).
Proof.
  induction 1 as [|[start end_] ws (Hcomma & Hdash & _) Hws IH];
    intros collected; simpl.
  - rewrite app_nil_r. reflexivity.
  - unfold window_text. simpl fst. simpl snd.
    change (start ++ "-" ++ end_)%string
      with (start ++ String "-" end_)%string.
    rewrite (split1_app_separator _ _ _ Hdash).
    rewrite IH, <- app_assoc. reflexivity.
Qed.

Lemma within_some_window_existsb (now : string)
    (l : list (string * string)) :
  within_some_window now l = existsb (window_open now) l.
Proof.
  induction l as [|w l IH]; simpl; [reflexivity|].
  unfold window_open at 1, strip_colons.
  destruct (_ && _); [reflexivity|exact IH].
Qed.

(** On plain windows the checker reads the clock once, logs nothing, and
    answers whether some window is open. *)
Lemma is_maintenance_window_plain (env : Remote) (table_name : string)
    (ws : list (string * string)) :
  ws <> [] -> Forall plain_window ws ->
  __is_maintenance_window env table_name (windows_text ws)
  = (Return (existsb (window_open (now_HM env)) ws), [Datetime_utcnow]).
Proof.
  intros Hne Hplain. unfold __is_maintenance_window.
  rewrite (split_windows_text ws Hne Hplain).
  rewrite (parse_plain_windows table_name ws Hplain []).
  rewrite bind_Return. simpl.
  rewrite within_some_window_existsb. reflexivity.
Qed.

(** X6.  For a non-empty list of windows written [start-end] and joined by
    commas, with no comma inside a window and no ['-'] inside a start, the
    checker reads the clock once, logs nothing, and answers True exactly
    when, for some window, the time [HHMM] lies between the start and the
    end with their colons removed, both ends included, as strings. *)
Theorem X6_well_formed_windows_are_checked_against_the_clock
    (env : Remote) (table_name : string) (ws : list (string * string)) :
  ws <> [] -> Forall plain_window ws ->
  exists answer,
    __is_maintenance_window env table_name (windows_text ws)
    = (Return answer, [Datetime_utcnow])
    /\ (answer = true <->
        exists w, In w ws
          /\ String.leb (strip_colons (fst w)) (now_HM env) = true
          /\ String.leb (now_HM env) (strip_colons (snd w)) = true).
Proof.
  intros Hne Hplain.
  exists (existsb (window_open (now_HM env)) ws).
  split; [apply is_maintenance_window_plain; assumption|].
  rewrite existsb_exists. unfold window_open, str_ge, str_le.
  split; intros (w & Hin & Hopen); exists w; split; try exact Hin.
  - apply andb_true_iff in Hopen. exact Hopen.
  - apply andb_true_iff. exact Hopen.
Qed.

Lemma X6_well_formed_windows_witness :
  let env := example_remote false "ACTIVE" 100 50 50 50 (9, 30)%nat
               (mkTable 100 50) None in
  windows_text [("00:00", "01:00"); ("09:00", "10:00")]
  = "00:00-01:00,09:00-10:00"
  /\ exists answer,
       __is_maintenance_window env "orders" "00:00-01:00,09:00-10:00"
       = (Return answer, [Datetime_utcnow])
       /\ (answer = true <->
           exists w, In w [("00:00", "01:00"); ("09:00", "10:00")]
             /\ String.leb (strip_colons (fst w)) (now_HM env) = true
             /\ String.leb (now_HM env) (strip_colons (snd w)) = true).
Proof.
  intros env. split; [reflexivity|].
  apply (X6_well_formed_windows_are_checked_against_the_clock env "orders"
           [("00:00", "01:00"); ("09:00", "10:00")]%string).
  - discriminate.
  - repeat constructor.
Defined.

(** X7.  A window whose end, colons removed, is before its start, such as
    [23:00-01:00] across midnight, is never open: when every window is of
    that kind the checker answers False at any time. *)
Theorem X7_windows_across_midnight_are_never_open
    (env : Remote) (table_name : string) (ws : list (string * string)) :
  ws <> [] -> Forall plain_window ws ->
  Forall (fun w =>
            String.ltb (strip_colons (snd w)) (strip_colons (fst w)) = true)
    ws ->
  __is_maintenance_window env table_name (windows_text ws)
  = (Return false, [Datetime_utcnow]).
Proof.
  intros Hne Hplain Hcross.
  rewrite (is_maintenance_window_plain env table_name ws Hne Hplain).
  f_equal. f_equal.
  destruct (existsb _ ws) eqn:Hopen; [|reflexivity].
  apply existsb_exists in Hopen. destruct Hopen as (w & Hin & Hopen).
  rewrite Forall_forall in Hcross. specialize (Hcross w Hin).
  unfold window_open, str_ge, str_le in Hopen.
  apply andb_true_iff in Hopen. destruct Hopen as [Hstart Hend].
  pose proof (string_leb_trans _ _ _ Hstart Hend) as Hle.
  unfold String.ltb in Hcross. unfold String.leb in Hle.
  rewrite String.compare_antisym in Hle.
  destruct (String.compare (strip_colons (snd w)) (strip_colons (fst w)));
    simpl in Hle; discriminate.
Qed.

Lemma X7_windows_across_midnight_witness :
  __is_maintenance_window
    (example_remote false "ACTIVE" 100 50 50 50 (23, 30)%nat
       (mkTable 100 50) None)
    "orders" "23:00-01:00"
  = (Return false, [Datetime_utcnow]).
Proof.
  apply (X7_windows_across_midnight_are_never_open
           (example_remote false "ACTIVE" 100 50 50 50 (23, 30)%nat
              (mkTable 100 50) None)
           "orders" [("23:00", "01:00")]%string).
  - discriminate.
  - repeat constructor.
  - repeat constructor.
Defined.

Lemma split_trailing_separator (sep : ascii) (s : string) :
  exists x l, split sep (s ++ String sep EmptyString) = x :: l ++ [EmptyString].
Proof.
  induction s as [|c s (x & l & IH)]; simpl.
  - rewrite Ascii.eqb_refl. exists EmptyString, []. reflexivity.
  - rewrite IH. destruct (Ascii.eqb c sep).
    + exists EmptyString, (x :: l). reflexivity.
    + exists (String c x), l. reflexivity.
Qed.

(** X8.  An empty entry in the window list makes the whole check fail
    closed: for the empty string, for any string with a trailing comma and
    for any string with a leading comma the checker answers False and logs
    the error, without reading the clock. *)
Theorem X8_empty_window_entry_fails_closed (env : Remote)
    (table_name s : string) :
  let failed :=
    (Return false,
     [Log ERROR "{0} - Malformatted maintenance window" [VStr table_name]]) in
  __is_maintenance_window env table_name "" = failed
  /\ __is_maintenance_window env table_name (s ++ ",") = failed
  /\ __is_maintenance_window env table_name ("," ++ s) = failed.
Proof.
  intros failed. unfold failed, __is_maintenance_window.
  split; [reflexivity|]. split.
  - rewrite (parse_maintenance_windows_malformed table_name); [reflexivity|].
    exists EmptyString. split; [|reflexivity].
    destruct (split_trailing_separator "," s) as (x & l & ->).
    right. apply in_or_app. right. left. reflexivity.
  - rewrite (parse_maintenance_windows_malformed table_name); [reflexivity|].
    exists EmptyString. split; [|reflexivity]. simpl. left. reflexivity.
Qed.

(** ** Further properties of the throughput updater *)

Ltac run_updater :=
  unfold update_throughput_body, dynamodb_get_table,
    gsi_stats_get_provisioned_read_units, dynamodb_get_gsi_status,
    try_except_DynamoDBResponseError, logger, tell, ret, raise, bind.

(** X9.  When [dynamodb.get_table] raises DynamoDBResponseError, the
    table not being there, [update_throughput] returns at once: it fetches
    no statistics and no status and sends no update. *)
Theorem X9_missing_table_returns_at_once (cfg : Config) (env : Remote)
    (fuel : nat) (table_name index_name : string)
    (read_units write_units : Z) (key_name : string) (body : ErrorBody) :
  get_table env table_name = inr body ->
  update_throughput cfg env (S fuel)
    table_name index_name read_units write_units key_name
  = (Return tt, [Dynamodb_get_table table_name]).
Proof.
  intros Hmissing. simpl. run_updater. simpl. rewrite Hmissing. reflexivity.
Qed.

Lemma X9_missing_table_witness :
  update_throughput
    (example_config None (example_options false 1000 1000 None false))
    example_remote_without_table 1 "orders" "by_customer" 150 50 "orders"
  = (Return tt, [Dynamodb_get_table "orders"]).
Proof.
  apply (X9_missing_table_returns_at_once
           (example_config None (example_options false 1000 1000 None false))
           example_remote_without_table 0 "orders" "by_customer" 150 50
           "orders"
           (mkErrorBody
              (Some "com.amazonaws.dynamodb.v20120810#ResourceNotFoundException")
              (Some "Requested resource not found"))).
  reflexivity.
Defined.

(** X10.  When maintenance windows are configured and the checker answers
    False, because the time is outside every window or because a window
    is malformed, [update_throughput] logs a warning and returns: after
    the table and the two capacity fetches it runs the checker and
    nothing else, so no status is fetched and no update is sent. *)
Theorem X10_outside_the_window_nothing_is_sent (cfg : Config) (env : Remote)
    (fuel : nat) (table_name index_name : string)
    (read_units write_units : Z) (key_name : string)
    (table : Table) (windows : string) :
  get_table env table_name = inl table ->
  maintenance_windows (get_table_option cfg key_name) = Some windows ->
  (windows =? "")%string = false ->
  result_of (__is_maintenance_window env table_name windows) = Return false ->
  update_throughput cfg env (S fuel)
    table_name index_name read_units write_units key_name
  = (Return tt,
     [Dynamodb_get_table table_name;
      GsiStats_get_provisioned_read_units table_name index_name;
      GsiStats_get_provisioned_read_units table_name index_name]
     ++ trace_of (__is_maintenance_window env table_name windows)
     ++ [Log WARNING "{0} - Current time is outside maintenance window"
           [VStr table_name]]).
Proof.
  intros Htable Hwindows Hset Houtside. simpl. run_updater. simpl.
  rewrite Htable. simpl.
  unfold maintenance_window_gate. rewrite Hwindows. simpl. rewrite Hset.
  simpl.
  destruct (__is_maintenance_window env table_name windows) as [res tr].
  simpl in Houtside. subst res. run_updater. simpl.
  rewrite app_nil_r. reflexivity.
Qed.

Lemma X10_outside_the_window_witness :
  let cfg := example_config None
               (example_options false 1000 1000 (Some "09:00-10:00") false) in
  let env := example_remote false "ACTIVE" 100 50 50 50 (8, 59)%nat
               (mkTable 100 50) None in
  update_throughput cfg env 1 "orders" "by_customer" 150 50 "orders"
  = (Return tt,
     [Dynamodb_get_table "orders";
      GsiStats_get_provisioned_read_units "orders" "by_customer";
      GsiStats_get_provisioned_read_units "orders" "by_customer";
      Datetime_utcnow;
      Log WARNING "{0} - Current time is outside maintenance window"
        [VStr "orders"]]).
Proof.
  intros cfg env.
  apply (X10_outside_the_window_nothing_is_sent cfg env 0
           "orders" "by_customer" 150 50 "orders" (mkTable 100 50)
           "09:00-10:00"); reflexivity.
Defined.

Lemma update_throughput_body_quiet_in_dry_run (cfg : Config) (env : Remote)
    self table_name index_name read_units write_units key_name :
  dry_run cfg = true ->
  quiet (update_throughput_body cfg env self
           table_name index_name read_units write_units key_name).
Proof.
  intros Hdry. unfold update_throughput_body.
  apply quiet_bind; [apply get_table_quiet|].
  intros [table|]; [|quiet_now].
  apply quiet_bind;
    [unfold gsi_stats_get_provisioned_read_units; quiet_now|].
  intros current_ru.
  apply quiet_bind;
    [unfold gsi_stats_get_provisioned_read_units; quiet_now|].
  intros current_wu.
  apply quiet_bind; [apply maintenance_window_gate_quiet|].
  intros [|]; cbn [negb]; [|quiet_now].
  apply quiet_bind; [unfold dynamodb_get_gsi_status; quiet_now|].
  intros gsi_status.
  apply quiet_bind; [destruct (negb _); quiet_now|].
  intros _.
  apply quiet_bind; [apply coupled_scale_down_quiet|].
  intros [r w]. unfold issue_update. rewrite Hdry. quiet_now.
Qed.

(** X11.  In simulate-only mode ([dry_run] set) [update_throughput]
    always returns normally and never sends an update, whatever the
    proposal, the status, the windows and the remote side are. *)
Theorem X11_dry_run_sends_nothing (cfg : Config) (env : Remote)
    (fuel : nat) (table_name index_name : string)
    (read_units write_units : Z) (key_name : string) :
  dry_run cfg = true ->
  let run := update_throughput cfg env (S fuel)
               table_name index_name read_units write_units key_name in
  result_of run = Return tt
  /\ table_updates (trace_of run) = [].
Proof.
  intros Hdry run. unfold run. simpl.
  destruct (update_throughput_body_quiet_in_dry_run cfg env
              (call_update_throughput (update_throughput cfg env fuel))
              table_name index_name read_units write_units key_name Hdry)
    as ([] & t & -> & Ht).
  split; [reflexivity|]. apply table_updates_none. exact Ht.
Qed.

Lemma X11_dry_run_witness :
  let cfg := example_dry_run_config
               (example_options false 1000 1000 None false) in
  let env := example_remote false "ACTIVE" 100 50 50 50 (9, 30)%nat
               (mkTable 100 50) None in
  dry_run cfg = true
  /\ result_of (update_throughput cfg env 1
                  "orders" "by_customer" 150 50 "orders") = Return tt
  /\ table_updates
       (trace_of (update_throughput cfg env 1
                    "orders" "by_customer" 150 50 "orders")) = [].
Proof.
  intros cfg env. split; [reflexivity|].
  apply (X11_dry_run_sends_nothing cfg env 0
           "orders" "by_customer" 150 50 "orders").
  reflexivity.
Defined.

(** X12.  With no maintenance window configured, coupling off and
    [dry_run] off, an accepted update is sent exactly as proposed,
    whatever the status of the index is; a status other than ACTIVE only
    adds a warning before the update. *)
Theorem X12_accepted_update_is_sent_as_proposed (cfg : Config)
    (env : Remote) (fuel : nat) (table_name index_name : string)
    (read_units write_units : Z) (key_name : string) (table : Table) :
  get_table env table_name = inl table ->
  truthy (maintenance_windows (get_table_option cfg key_name)) = false ->
  always_decrease_rw_together (get_table_option cfg key_name) = false ->
  dry_run cfg = false ->
  table_update env table_name read_units write_units = None ->
  update_throughput cfg env (S fuel)
    table_name index_name read_units write_units key_name
  = (Return tt,
     [Dynamodb_get_table table_name;
      GsiStats_get_provisioned_read_units table_name index_name;
      GsiStats_get_provisioned_read_units table_name index_name;
      Dynamodb_get_gsi_status table_name]
     ++ (if (get_gsi_status env table_name =? "ACTIVE")%string then []
         else [Log WARNING
                 "{0} - GSI: {1} - Not performing throughput changes when table is in {1} state"
                 [VStr table_name; VStr index_name;
                  VStr (get_gsi_status env table_name)]])
     ++ [Table_update table_name read_units write_units;
         Log INFO "{0} - GSI: {1} - Provisioning updated"
           [VStr table_name; VStr index_name]]).
Proof.
  intros Htable Hwindows Hcoupled Hdry Haccept. simpl. run_updater. simpl.
  rewrite Htable. simpl.
  assert (Hgate : maintenance_window_gate cfg env table_name key_name
                  = (Return true, [])).
  { unfold maintenance_window_gate.
    destruct (maintenance_windows _) as [windows|]; [|reflexivity].
    rewrite Hwindows. reflexivity. }
  rewrite Hgate. simpl.
  unfold coupled_scale_down, issue_update, table_update_throughput, Py.int.
  rewrite Hcoupled, Hdry. run_updater. simpl. rewrite Haccept.
  destruct (get_gsi_status env table_name =? "ACTIVE")%string; reflexivity.
Qed.

Lemma X12_accepted_update_witness :
  let cfg := example_config None (example_options false 1000 1000 None false) in
  let env := example_remote false "CREATING" 100 50 50 50 (9, 30)%nat
               (mkTable 100 50) None in
  update_throughput cfg env 1 "orders" "by_customer" 150 60 "orders"
  = (Return tt,
     [Dynamodb_get_table "orders";
      GsiStats_get_provisioned_read_units "orders" "by_customer";
      GsiStats_get_provisioned_read_units "orders" "by_customer";
      Dynamodb_get_gsi_status "orders";
      Log WARNING
        "{0} - GSI: {1} - Not performing throughput changes when table is in {1} state"
        [VStr "orders"; VStr "by_customer"; VStr "CREATING"];
      Table_update "orders" 150 60;
      Log INFO "{0} - GSI: {1} - Provisioning updated"
        [VStr "orders"; VStr "by_customer"]]).
Proof.
  intros cfg env.
  apply (X12_accepted_update_is_sent_as_proposed cfg env 0
           "orders" "by_customer" 150 60 "orders" (mkTable 100 50));
    reflexivity.
Defined.

(** *** Rejections *)

Lemma rfind_split_without_separator (sep : ascii) (s : string) :
  contains sep s = false -> rfind_split sep s = None.
Proof.
  induction s as [|c s IH]; simpl; intros H; [reflexivity|].
  apply orb_false_iff in H. destruct H as [Hc Hs].
  rewrite (IH Hs), Hc. reflexivity.
Qed.

(** X13.  A rejection whose category, the part of [__type] after the last
    ['#'], is not LimitExceededException is not retried.  When the body
    holds a ['message'], one record with that message is logged after the
    update, a warning for ValidationException, ResourceInUseException and
    AccessDeniedException, an error for any other category, and the call
    ends normally.  When the body holds no ['message'], formatting the
    record raises KeyError: nothing is logged and the exception leaves
    the function right after the update was sent. *)
Theorem X13_other_rejections_are_logged_or_raise_KeyError (cfg : Config)
    (env : Remote) (self : list value -> M unit) (table : Table)
    (table_name index_name : string) (read_units write_units : Z)
    (key_name : string) (body : ErrorBody)
    (body_type_ dynamodb_error : string) :
  dry_run cfg = false ->
  table_update env table_name read_units write_units = Some body ->
  body_type body = Some body_type_ ->
  nth_error (rsplit1 "#" body_type_) 1 = Some dynamodb_error ->
  (dynamodb_error =? "LimitExceededException")%string = false ->
  match body_message body with
  | Some message =>
      exists fmt args,
        issue_update cfg env self table table_name index_name
          read_units write_units key_name
        = (Return tt,
           [Table_update table_name read_units write_units;
            Log (if known_terminal_rejection dynamodb_error
                 then WARNING else ERROR) fmt args])
        /\ In (VStr message) args
  | None =>
      issue_update cfg env self table table_name index_name
        read_units write_units key_name
      = (Raise (KeyError "message"),
         [Table_update table_name read_units write_units])
  end.
Proof.
  intros Hdry Hrejected Htype Hcategory Hother.
  unfold issue_update, table_update_throughput, on_rejection, subscript,
    Py.int.
  rewrite Hdry. cbn [negb].
  unfold try_except_DynamoDBResponseError, logger, tell, raise, ret, bind.
  rewrite Hrejected, Htype. cbn beta iota. rewrite Hcategory, Hother.
  unfold known_terminal_rejection.
  destruct (body_message body) as [message|].
  - destruct (dynamodb_error =? "ValidationException")%string;
      [simpl; eexists _, _; split; [reflexivity|simpl; auto]|].
    destruct (dynamodb_error =? "ResourceInUseException")%string;
      [simpl; eexists _, _; split; [reflexivity|simpl; auto]|].
    destruct (dynamodb_error =? "AccessDeniedException")%string;
      simpl; eexists _, _; (split; [reflexivity|simpl; auto]).
  - destruct (dynamodb_error =? "ValidationException")%string;
      [reflexivity|].
    destruct (dynamodb_error =? "ResourceInUseException")%string;
      [reflexivity|].
    destruct (dynamodb_error =? "AccessDeniedException")%string;
      reflexivity.
Qed.

Lemma X13_other_rejections_witness :
  let cfg := example_config None (example_options false 1000 1000 None false) in
  let env := example_remote false "ACTIVE" 100 50 50 50 (9, 30)%nat
               (mkTable 100 50)
               (Some (mkErrorBody
                        (Some "com.amazon.coral.service#ValidationException")
                        None)) in
  issue_update cfg env (fun _ => ret tt) (mkTable 100 50)
    "orders" "by_customer" 150 60 "orders"
  = (Raise (KeyError "message"), [Table_update "orders" 150 60]).
Proof.
  intros cfg env.
  apply (X13_other_rejections_are_logged_or_raise_KeyError cfg env
           (fun _ => ret tt) (mkTable 100 50) "orders" "by_customer" 150 60
           "orders"
           (mkErrorBody
              (Some "com.amazon.coral.service#ValidationException") None)
           "com.amazon.coral.service#ValidationException"
           "ValidationException"); reflexivity.
Defined.

(** X14.  A rejection whose [__type] holds no ['#'] makes the handler
    raise IndexError, taking element 1 of a one-element list: the
    exception leaves the function right after the update was sent, and
    nothing is logged. *)
Theorem X14_error_type_without_hash_raises_IndexError (cfg : Config)
    (env : Remote) (self : list value -> M unit) (table : Table)
    (table_name index_name : string) (read_units write_units : Z)
    (key_name : string) (body : ErrorBody) (body_type_ : string) :
  dry_run cfg = false ->
  table_update env table_name read_units write_units = Some body ->
  body_type body = Some body_type_ ->
  contains "#" body_type_ = false ->
  issue_update cfg env self table table_name index_name
    read_units write_units key_name
  = (Raise IndexError, [Table_update table_name read_units write_units]).
Proof.
  intros Hdry Hrejected Htype Hhash.
  unfold issue_update, table_update_throughput, on_rejection, subscript,
    rsplit1, Py.int.
  rewrite Hdry. cbn [negb].
  unfold try_except_DynamoDBResponseError, tell, raise, ret, bind.
  rewrite Hrejected, Htype. cbn beta iota.
  rewrite (rfind_split_without_separator _ _ Hhash). reflexivity.
Qed.

Lemma X14_error_type_without_hash_witness :
  let cfg := example_config None (example_options false 1000 1000 None false) in
  let env := example_remote false "ACTIVE" 100 50 50 50 (9, 30)%nat
               (mkTable 100 50)
               (Some (mkErrorBody (Some "LimitExceededException")
                        (Some "Too many"))) in
  issue_update cfg env (fun _ => ret tt) (mkTable 100 50)
    "orders" "by_customer" 150 60 "orders"
  = (Raise IndexError, [Table_update "orders" 150 60]).
Proof.
  intros cfg env.
  apply (X14_error_type_without_hash_raises_IndexError cfg env
           (fun _ => ret tt) (mkTable 100 50) "orders" "by_customer" 150 60
           "orders"
           (mkErrorBody (Some "LimitExceededException") (Some "Too many"))
           "LimitExceededException");
    reflexivity.
Defined.

(** X15.  On LimitExceededException, with a ['message'] in the body, the
    handler logs the message and makes at most one call of
    [update_throughput], by name and with four arguments: the table name,
    the proposed reads and the table's actual writes, and the key name
    when the proposed reads exceed the table's actual reads; otherwise
    the table name, the actual reads, the proposed writes and the key
    name when the proposed writes exceed the actual writes; otherwise no
    call at all.  Reads come first: when both dimensions exceed, the
    writes are not retried.  What the call does is what the handler
    does. *)
Theorem X15_limit_exceeded_retries_one_dimension (cfg : Config)
    (env : Remote) (self : list value -> M unit) (table : Table)
    (table_name index_name : string) (read_units write_units : Z)
    (key_name : string) (body : ErrorBody) (body_type_ message : string) :
  dry_run cfg = false ->
  table_update env table_name read_units write_units = Some body ->
  body_type body = Some body_type_ ->
  nth_error (rsplit1 "#" body_type_) 1
  = Some "LimitExceededException"%string ->
  body_message body = Some message ->
  let sent :=
    [Table_update table_name read_units write_units;
     Log WARNING "{0} - {1}" [VStr table_name; VStr message]] in
  let retry_reads :=
    self [VStr table_name; VInt read_units;
          VInt (throughput_write table); VStr key_name] in
  let retry_writes :=
    self [VStr table_name; VInt (throughput_read table);
          VInt write_units; VStr key_name] in
  issue_update cfg env self table table_name index_name
    read_units write_units key_name
  = if read_units >? throughput_read table then
      (result_of retry_reads,
       sent ++ [Log INFO "{0} - Scaling up reads to {1:d}"
                  [VStr table_name; VInt read_units]]
       ++ trace_of retry_reads)
    else if write_units >? throughput_write table then
      (result_of retry_writes,
       sent ++ [Log INFO "{0} - Scaling up writes to {1:d}"
                  [VStr table_name; VInt write_units]]
       ++ trace_of retry_writes)
    else (Return tt, sent).
Proof.
  intros Hdry Hrejected Htype Hcategory Hmessage
    sent retry_reads retry_writes.
  unfold issue_update, table_update_throughput, on_rejection, subscript,
    Py.int.
  rewrite Hdry. cbn [negb].
  unfold try_except_DynamoDBResponseError, tell, raise, ret, bind.
  rewrite Hrejected, Htype, Hmessage. cbn beta iota.
  rewrite Hcategory. cbn [String.eqb Ascii.eqb Bool.eqb].
  destruct (read_units >? throughput_read table);
    [|destruct (write_units >? throughput_write table)].
  - subst sent retry_reads retry_writes.
    unfold result_of, trace_of, logger, tell.
    destruct (self _). reflexivity.
  - subst sent retry_reads retry_writes.
    unfold result_of, trace_of, logger, tell.
    destruct (self _). reflexivity.
  - reflexivity.
Qed.

Lemma X15_limit_exceeded_witness :
  let cfg := example_config None (example_options false 1000 1000 None false) in
  let env := example_remote false "ACTIVE" 100 50 50 50 (9, 30)%nat
               (mkTable 100 50) (Some limit_exceeded) in
  issue_update cfg env (fun args => logger DEBUG "called" args)
    (mkTable 100 50) "orders" "by_customer" 150 60 "orders"
  = (Return tt,
     [Table_update "orders" 150 60;
      Log WARNING "{0} - {1}"
        [VStr "orders"; VStr "Subscriber limit exceeded"];
      Log INFO "{0} - Scaling up reads to {1:d}" [VStr "orders"; VInt 150];
      Log DEBUG "called"
        [VStr "orders"; VInt 150; VInt 50; VStr "orders"]]).
Proof.
  intros cfg env.
  apply (X15_limit_exceeded_retries_one_dimension cfg env
           (fun args => logger DEBUG "called" args)
           (mkTable 100 50) "orders" "by_customer" 150 60 "orders"
           limit_exceeded
           "com.amazonaws.dynamodb.v20120810#LimitExceededException"
           "Subscriber limit exceeded"); reflexivity.
Defined.

(** *** What leaves the updater *)

Lemma escapes_after_quiet {A B} (m : M A) (f : A -> M B) :
  quiet m ->
  (forall a, returns_or_raises_from_the_handler (f a)) ->
  returns_or_raises_from_the_handler (bind m f).
Proof.
  intros (a & t & -> & _) Hf. rewrite bind_Return.
  unfold returns_or_raises_from_the_handler, result_of in *. simpl.
  apply Hf.
Qed.

Lemma quiet_escapes {A} (m : M A) :
  quiet m -> returns_or_raises_from_the_handler m.
Proof.
  intros (a & t & -> & _). left. exists a. reflexivity.
Qed.

Lemma on_rejection_escapes f table table_name read_units write_units
    key_name error :
  returns_or_raises_from_the_handler
    (on_rejection (call_update_throughput f) table table_name
       read_units write_units key_name error).
Proof.
  unfold on_rejection, subscript, ret,
    returns_or_raises_from_the_handler.
  destruct (body_type error) as [body_type_|];
    [|right; right; right; left; reflexivity].
  rewrite bind_Return. cbn beta iota.
  destruct (nth_error _ 1) as [dynamodb_error|];
    [|right; right; left; reflexivity].
  destruct (body_message error) as [message|];
    repeat match goal with
           | |- context [if ?c then _ else _] => destruct c
           end;
    first [ left; exists tt; reflexivity
          | right; left; reflexivity
          | right; right; right; right; reflexivity ].
Qed.

Lemma issue_update_escapes (cfg : Config) (env : Remote) f table
    table_name index_name read_units write_units key_name :
  returns_or_raises_from_the_handler
    (issue_update cfg env (call_update_throughput f) table
       table_name index_name read_units write_units key_name).
Proof.
  unfold issue_update.
  destruct (dry_run cfg); simpl; [apply quiet_escapes; quiet_now|].
  unfold table_update_throughput, Py.int.
  destruct (table_update env table_name read_units write_units)
    as [body|].
  - unfold try_except_DynamoDBResponseError, bind, tell, raise. simpl.
    pose proof (on_rejection_escapes f table table_name
                  read_units write_units key_name body) as H.
    destruct (on_rejection _ _ _ _ _ _ _) as [r t]. exact H.
  - left. exists tt. reflexivity.
Qed.

(** X16.  With the collaborators answering as modelled, a call of
    [update_throughput] ends in one of five ways: it returns, it raises
    the TypeError of the four-argument retry call, it raises the
    IndexError of an error type without ['#'], or it raises the KeyError
    of a rejection body without ['__type'] or without ['message'].  A
    DynamoDBResponseError, from [get_table] or from [table.update],
    never leaves it. *)
Theorem X16_exceptions_that_leave_the_updater (cfg : Config)
    (env : Remote) (fuel : nat) (table_name index_name : string)
    (read_units write_units : Z) (key_name : string) :
  let outcome_ := result_of (update_throughput cfg env (S fuel)
                    table_name index_name read_units write_units key_name) in
  outcome_ = Return tt
  \/ outcome_ = Raise (TypeError_arity "update_throughput" 5 4)
  \/ outcome_ = Raise IndexError
  \/ outcome_ = Raise (KeyError "__type")
  \/ outcome_ = Raise (KeyError "message").
Proof.
  assert (H : returns_or_raises_from_the_handler
                (update_throughput cfg env (S fuel)
                   table_name index_name read_units write_units key_name)).
  { simpl. unfold update_throughput_body.
    apply escapes_after_quiet; [apply get_table_quiet|].
    intros [table|]; [|apply quiet_escapes; quiet_now].
    apply escapes_after_quiet;
      [unfold gsi_stats_get_provisioned_read_units; quiet_now|].
    intros current_ru.
    apply escapes_after_quiet;
      [unfold gsi_stats_get_provisioned_read_units; quiet_now|].
    intros current_wu.
    apply escapes_after_quiet; [apply maintenance_window_gate_quiet|].
    intros [|]; cbn [negb]; [|apply quiet_escapes; quiet_now].
    apply escapes_after_quiet; [unfold dynamodb_get_gsi_status; quiet_now|].
    intros gsi_status.
    apply escapes_after_quiet; [destruct (negb _); quiet_now|].
    intros _.
    apply escapes_after_quiet; [apply coupled_scale_down_quiet|].
    intros [r w]. apply issue_update_escapes. }
  intros outcome_. destruct H as [([] & H)|H]; [left; exact H|right; exact H].
Qed.

(** *** The capacity the coupling step compares with *)

(** X17.  With coupling on, the write proposal is compared with, and
    reverted to, the provisioned read units: both [current_ru] and
    [current_wu] come from [get_provisioned_read_units].  When the reads
    are not decreased and not at their floor, and the proposed writes are
    below the provisioned read units, the update sent carries the
    proposed reads and, as writes, the provisioned read units, whatever
    the provisioned write units are. *)
Theorem X17_writes_are_reverted_to_the_provisioned_reads (cfg : Config)
    (env : Remote) (fuel : nat) (table_name index_name : string)
    (read_units write_units : Z) (key_name : string) (table : Table) :
  let opts := get_table_option cfg key_name in
  let current := get_provisioned_read_units env table_name index_name in
  get_table env table_name = inl table ->
  truthy (maintenance_windows opts) = false ->
  always_decrease_rw_together opts = true ->
  dry_run cfg = false ->
  current <= read_units ->
  current <> gsi_min_provisioned_reads opts ->
  write_units < current ->
  table_update env table_name read_units current = None ->
  let run := update_throughput cfg env (S fuel)
               table_name index_name read_units write_units key_name in
  result_of run = Return tt
  /\ table_updates (trace_of run) = [(read_units, current)].
Proof.
  intros opts current Htable Hwindows Hcoupled Hdry Hreads Hfloor Hwrites
    Haccept run.
  subst opts current run. simpl. run_updater. simpl.
  rewrite Htable. simpl.
  assert (Hgate : maintenance_window_gate cfg env table_name key_name
                  = (Return true, [])).
  { unfold maintenance_window_gate.
    destruct (maintenance_windows _) as [windows|]; [|reflexivity].
    rewrite Hwindows. reflexivity. }
  rewrite Hgate. simpl.
  unfold coupled_scale_down, issue_update, table_update_throughput, Py.int.
  rewrite Hcoupled, Hdry.
  replace (read_units <? get_provisioned_read_units env table_name index_name)
    with false by (symmetry; apply Z.ltb_ge; lia).
  replace (get_provisioned_read_units env table_name index_name
           =? gsi_min_provisioned_reads (get_table_option cfg key_name))
    with false by (symmetry; apply Z.eqb_neq; exact Hfloor).
  replace (write_units <? get_provisioned_read_units env table_name index_name)
    with true by (symmetry; apply Z.ltb_lt; lia).
  run_updater. simpl. rewrite Haccept.
  destruct (get_gsi_status env table_name =? "ACTIVE")%string;
    split; reflexivity.
Qed.

Lemma X17_writes_are_reverted_witness :
  let cfg := example_config None (example_options false 1000 1000 None true) in
  let env := example_remote false "ACTIVE" 100 10 50 50 (9, 30)%nat
               (mkTable 100 10) None in
  get_provisioned_write_units env "orders" "by_customer" = 10
  /\ result_of (update_throughput cfg env 1
                  "orders" "by_customer" 100 5 "orders") = Return tt
  /\ table_updates
       (trace_of (update_throughput cfg env 1
                    "orders" "by_customer" 100 5 "orders"))
     = [(100, 100)].
Proof.
  intros cfg env. split; [reflexivity|].
  apply (X17_writes_are_reverted_to_the_provisioned_reads cfg env 0
           "orders" "by_customer" 100 5 "orders" (mkTable 100 10));
    try reflexivity; simpl; lia.
Defined.

(** ** Further properties of the entry point *)

Lemma ensure_provisioning_of_quiet (d : dimension) cfg calculators env
    table_name index_name key_name :
  quiet (ensure_provisioning_of d cfg calculators env
           table_name index_name key_name).
Proof.
  destruct d; simpl;
    unfold __ensure_provisioning_reads, __ensure_provisioning_writes,
      reads_ceiling, writes_ceiling, Py.int;
    run_decision;
    repeat match goal with
           | |- context [if ?c then _ else _] => destruct c; simpl
           end; eexists _, _; split; reflexivity.
Qed.

(** The gate lets the run through when the breaker is not configured or
    answers "closed". *)
Lemma circuit_breaker_gate_passes (cfg : Config) (env : Remote) :
  truthy (circuit_breaker_url cfg) && is_open env = false ->
  circuit_breaker_gate cfg env
  = (Return false,
     if truthy (circuit_breaker_url cfg) then [CircuitBreaker_is_open]
     else []).
Proof.
  unfold circuit_breaker_gate, circuit_breaker_is_open.
  destruct (truthy _); simpl; intros H; [rewrite H|]; reflexivity.
Qed.

(** X18.  When the run is not stopped by the circuit breaker and the
    table has no global secondary index, [ensure_provisioning] lists the
    indexes, logs at DEBUG level that none was found and returns: no
    capacity is fetched and nothing is updated. *)
Theorem X18_table_without_indexes_is_left_alone (cfg : Config)
    (calculators : Calculators) (env : Remote) (fuel : nat)
    (table_name key_name : string) :
  truthy (circuit_breaker_url cfg) && is_open env = false ->
  table_gsis env table_name = [] ->
  ensure_provisioning cfg calculators env fuel table_name key_name
  = (Return tt,
     (if truthy (circuit_breaker_url cfg) then [CircuitBreaker_is_open]
      else [])
     ++ [Dynamodb_table_gsis table_name;
         Log DEBUG "{0} - No global secondary indexes found"
           [VStr table_name]]).
Proof.
  intros Hgate Hnone. unfold ensure_provisioning.
  rewrite (circuit_breaker_gate_passes cfg env Hgate), bind_Return.
  unfold dynamodb_table_gsis. rewrite Hnone. reflexivity.
Qed.

Lemma X18_table_without_indexes_witness :
  let cfg := example_config (Some "http://breaker.example/status")
               (example_options false 1000 1000 None false) in
  let env := mkRemote false (fun _ => []) (fun _ => inl (mkTable 100 50))
               (fun _ => "ACTIVE") (fun _ _ => 100) (fun _ _ => 50)
               (fun _ _ => 50%Q) (fun _ _ => 50%Q) (9, 30)%nat
               (fun _ _ _ => None) in
  ensure_provisioning cfg unused_calculators env 1 "orders" "orders"
  = (Return tt,
     [CircuitBreaker_is_open; Dynamodb_table_gsis "orders";
      Log DEBUG "{0} - No global secondary indexes found" [VStr "orders"]]).
Proof.
  intros cfg env.
  apply (X18_table_without_indexes_is_left_alone cfg unused_calculators env
           1 "orders" "orders"); reflexivity.
Defined.

Lemma ends_without_update_after_quiet {A B} (m : M A) (f : A -> M B) :
  quiet m ->
  (forall a, ends_without_update (f a)) ->
  ends_without_update (bind m f).
Proof.
  intros (a & t & -> & Ht) Hf. destruct (Hf a) as [Hres Hcount].
  rewrite bind_Return. unfold ends_without_update, result_of, trace_of in *.
  simpl. split; [exact Hres|].
  rewrite count_table_updates_app, Ht, Hcount. reflexivity.
Qed.

Lemma quiet_ends_without_update {A} (m : M A) :
  quiet m -> ends_without_update m.
Proof.
  intros (a & t & -> & Ht). split; [left; exists a; reflexivity|exact Ht].
Qed.

Lemma ensure_provisioning_gsis_sends_nothing (cfg : Config)
    (calculators : Calculators) (env : Remote) (fuel : nat)
    (table_name key_name : string) (gsis : list GSI) :
  ends_without_update
    (ensure_provisioning_gsis cfg calculators env fuel
       table_name key_name gsis).
Proof.
  induction gsis as [|gsi rest IH]; cbn [ensure_provisioning_gsis].
  - apply quiet_ends_without_update. quiet_now.
  - apply ends_without_update_after_quiet;
      [exact (ensure_provisioning_of_quiet Reads cfg calculators env
                table_name (IndexName gsi) key_name)|].
    intros [flag_r r].
    apply ends_without_update_after_quiet;
      [exact (ensure_provisioning_of_quiet Writes cfg calculators env
                table_name (IndexName gsi) key_name)|].
    intros [flag_w w].
    destruct (flag_r || flag_w).
    + rewrite call_update_throughput_four_arguments.
      split; [right; reflexivity|reflexivity].
    + apply ends_without_update_after_quiet; [quiet_now|].
      intros _. exact IH.
Qed.

Lemma circuit_breaker_gate_quiet (cfg : Config) (env : Remote) :
  quiet (circuit_breaker_gate cfg env).
Proof.
  unfold circuit_breaker_gate, circuit_breaker_is_open.
  destruct (truthy _); [|quiet_now].
  destruct (is_open env); quiet_now.
Qed.

(** X19.  No run of [ensure_provisioning] ever sends a [table.update]:
    for every configuration, remote side and table it either returns, or
    raises the TypeError of its four-argument call of
    [update_throughput]. *)
Theorem X19_ensure_provisioning_never_sends_an_update (cfg : Config)
    (calculators : Calculators) (env : Remote) (fuel : nat)
    (table_name key_name : string) :
  let run := ensure_provisioning cfg calculators env fuel
               table_name key_name in
  (result_of run = Return tt
   \/ result_of run = Raise (TypeError_arity "update_throughput" 5 4))
  /\ table_updates (trace_of run) = [].
Proof.
  intros run.
  assert (H : ends_without_update run).
  { unfold run, ensure_provisioning.
    apply ends_without_update_after_quiet;
      [apply circuit_breaker_gate_quiet|].
    intros [|]; [apply quiet_ends_without_update; quiet_now|].
    apply ends_without_update_after_quiet;
      [unfold dynamodb_table_gsis; quiet_now|].
    intros [|gsi gsis]; [apply quiet_ends_without_update; quiet_now|].
    apply ends_without_update_after_quiet; [quiet_now|].
    intros _. apply ensure_provisioning_gsis_sends_nothing. }
  destruct H as [[([] & Hres)|Hres] Hcount];
    (split; [|apply table_updates_none; exact Hcount]).
  - left. exact Hres.
  - right. exact Hres.
Qed.

Lemma ensure_provisioning_gsis_without_changes (cfg : Config)
    (calculators : Calculators) (env : Remote) (fuel : nat)
    (table_name key_name : string) (gsis : list GSI) :
  (forall gsi, In gsi gsis ->
     exists r w,
       result_of (__ensure_provisioning_reads cfg calculators env
                    table_name (IndexName gsi) key_name) = Return (false, r)
       /\ result_of (__ensure_provisioning_writes cfg calculators env
                       table_name (IndexName gsi) key_name)
          = Return (false, w)) ->
  let run := ensure_provisioning_gsis cfg calculators env fuel
               table_name key_name gsis in
  result_of run = Return tt
  /\ forall gsi, In gsi gsis ->
       In (Log INFO "{0} - GSI: {1} - No need to change provisioning"
             [VStr table_name; VStr (IndexName gsi)])
          (trace_of run).
Proof.
  induction gsis as [|gsi rest IH]; intros Hall;
    cbn [ensure_provisioning_gsis].
  - split; [reflexivity|]. intros gsi [].
  - destruct (Hall gsi (or_introl eq_refl)) as (r & w & Hr & Hw).
    destruct (__ensure_provisioning_reads cfg calculators env
                table_name (IndexName gsi) key_name) as [res_r tr].
    destruct (__ensure_provisioning_writes cfg calculators env
                table_name (IndexName gsi) key_name) as [res_w tw].
    unfold result_of in Hr, Hw. simpl in Hr, Hw. subst res_r res_w.
    rewrite bind_Return. cbn beta iota. rewrite bind_Return.
    cbn beta iota. cbn [orb]. unfold logger, tell.
    rewrite bind_Return.
    destruct (IH (fun g Hg => Hall g (or_intror Hg))) as [IHres IHlogs].
    unfold result_of, trace_of in *. simpl. split; [exact IHres|].
    intros g [<-|Hg].
    + apply in_or_app. right. apply in_or_app. right. left. reflexivity.
    + apply in_or_app. right. apply in_or_app. right. right.
      apply IHlogs. exact Hg.
Qed.

(** X20.  When the run is not stopped by the circuit breaker and, for
    every index of the table, neither decision reports a needed update,
    [ensure_provisioning] returns normally and logs, for each index, that
    there is no need to change its provisioning. *)
Theorem X20_run_without_needed_updates_returns (cfg : Config)
    (calculators : Calculators) (env : Remote) (fuel : nat)
    (table_name key_name : string) :
  truthy (circuit_breaker_url cfg) && is_open env = false ->
  (forall gsi, In gsi (table_gsis env table_name) ->
     exists r w,
       result_of (__ensure_provisioning_reads cfg calculators env
                    table_name (IndexName gsi) key_name) = Return (false, r)
       /\ result_of (__ensure_provisioning_writes cfg calculators env
                       table_name (IndexName gsi) key_name)
          = Return (false, w)) ->
  let run := ensure_provisioning cfg calculators env fuel
               table_name key_name in
  result_of run = Return tt
  /\ forall gsi, In gsi (table_gsis env table_name) ->
       In (Log INFO "{0} - GSI: {1} - No need to change provisioning"
             [VStr table_name; VStr (IndexName gsi)])
          (trace_of run).
Proof.
  intros Hgate Hall run. unfold run, ensure_provisioning.
  rewrite (circuit_breaker_gate_passes cfg env Hgate), bind_Return.
  cbn beta iota.
  change (dynamodb_table_gsis env table_name)
    with (Return (table_gsis env table_name),
          [Dynamodb_table_gsis table_name]).
  rewrite bind_Return. cbn beta iota.
  destruct (ensure_provisioning_gsis_without_changes cfg calculators env
              fuel table_name key_name (table_gsis env table_name) Hall)
    as [Hres Hlogs].
  destruct (table_gsis env table_name) as [|gsi gsis] eqn:Hgsis.
  - split; [reflexivity|]. intros g [].
  - unfold logger, tell. rewrite bind_Return.
    unfold result_of, trace_of in *. simpl. split; [exact Hres|].
    intros g Hg. apply in_or_app. right. right. right.
    apply Hlogs. exact Hg.
Qed.

Lemma X20_run_without_needed_updates_witness :
  let cfg := example_config None (example_options false 1000 1000 None false) in
  let env := example_remote false "ACTIVE" 100 50 50 50 (9, 30)%nat
               (mkTable 100 50) None in
  result_of (ensure_provisioning cfg unused_calculators env 1
               "orders" "orders") = Return tt
  /\ forall gsi, In gsi (table_gsis env "orders") ->
       In (Log INFO "{0} - GSI: {1} - No need to change provisioning"
             [VStr "orders"; VStr (IndexName gsi)])
          (trace_of (ensure_provisioning cfg unused_calculators env 1
                       "orders" "orders")).
Proof.
  intros cfg env.
  apply (X20_run_without_needed_updates_returns cfg unused_calculators env
           1 "orders" "orders").
  - reflexivity.
  - intros gsi [<-|[]]. exists 100, 50. split; reflexivity.
Defined.

(** X21.  The first index for which a decision reports a needed update
    ends the loop: the change is logged, the four-argument call of
    [update_throughput] raises TypeError, and the indexes after it are
    never evaluated, so the run is the same whatever follows in the
    list. *)
Theorem X21_first_needed_update_ends_the_loop (cfg : Config)
    (calculators : Calculators) (env : Remote) (fuel : nat)
    (table_name key_name : string) (gsi : GSI) (rest : list GSI)
    (flag_r flag_w : bool) (r w : Z) :
  result_of (__ensure_provisioning_reads cfg calculators env
               table_name (IndexName gsi) key_name) = Return (flag_r, r) ->
  result_of (__ensure_provisioning_writes cfg calculators env
               table_name (IndexName gsi) key_name) = Return (flag_w, w) ->
  flag_r || flag_w = true ->
  let run := ensure_provisioning_gsis cfg calculators env fuel
               table_name key_name (gsi :: rest) in
  result_of run = Raise (TypeError_arity "update_throughput" 5 4)
  /\ run = ensure_provisioning_gsis cfg calculators env fuel
             table_name key_name [gsi]
  /\ exists before,
       trace_of run
       = before
         ++ [Log INFO
               "{0} - GSI: {1} - Changing provisioning to {2:d} read units and {3:d} write units"
               [VStr table_name; VStr (IndexName gsi); VInt r; VInt w]].
Proof.
  intros Hr Hw Hflag run.
  assert (Hrun : forall others,
    ensure_provisioning_gsis cfg calculators env fuel table_name key_name
      (gsi :: others)
    = (Raise (TypeError_arity "update_throughput" 5 4),
       trace_of (__ensure_provisioning_reads cfg calculators env
                   table_name (IndexName gsi) key_name)
       ++ trace_of (__ensure_provisioning_writes cfg calculators env
                      table_name (IndexName gsi) key_name)
       ++ [Log INFO
             "{0} - GSI: {1} - Changing provisioning to {2:d} read units and {3:d} write units"
             [VStr table_name; VStr (IndexName gsi); VInt r; VInt w]])).
  { intros others. cbn [ensure_provisioning_gsis].
    destruct (__ensure_provisioning_reads cfg calculators env
                table_name (IndexName gsi) key_name) as [res_r tr].
    destruct (__ensure_provisioning_writes cfg calculators env
                table_name (IndexName gsi) key_name) as [res_w tw].
    unfold result_of in Hr, Hw. simpl in Hr, Hw. subst res_r res_w.
    rewrite bind_Return. cbn beta iota. rewrite bind_Return.
    cbn beta iota. rewrite Hflag.
    rewrite call_update_throughput_four_arguments.
    unfold logger, tell, raise, bind, trace_of, Py.int. simpl.
    reflexivity. }
  unfold run. rewrite (Hrun rest), (Hrun []).
  split; [reflexivity|]. split; [reflexivity|].
  eexists. unfold trace_of at 1. simpl snd. rewrite app_assoc. reflexivity.
Qed.

Lemma X21_first_needed_update_witness :
  let cfg := example_config None (example_options false 50 1000 None false) in
  let env := example_remote false "ACTIVE" 100 50 50 50 (9, 30)%nat
               (mkTable 100 50) None in
  ensure_provisioning_gsis cfg unused_calculators env 1 "orders" "orders"
    [mkGSI "by_customer"; mkGSI "by_date"]
  = ensure_provisioning_gsis cfg unused_calculators env 1 "orders" "orders"
      [mkGSI "by_customer"].
Proof.
  intros cfg env.
  apply (X21_first_needed_update_ends_the_loop cfg unused_calculators env
           1 "orders" "orders" (mkGSI "by_customer") [mkGSI "by_date"]
           true false 50 50); reflexivity.
Defined.
